(** * The line buffer of text_editor.c

    A shallow embedding of the three buffer functions of [text_editor.c]
    ([buffer_select_node], [buffer_remove_character],
    [buffer_insert_character]) and of the line walk of [main], followed by
    the properties of the line store and of the two edit operations.

    Memory is explicit.  A [node_t] lives at an address of a heap, a pointer
    is an optional address ([None] is [NULL]), and the 128-byte [text] array
    of a node is a list of characters that is read and written by index.
    Every access outside [text], every dereference of [NULL] and every read
    of a string without terminator is undefined behaviour in C and is the
    outcome [Undefined] here. *)

From Stdlib Require Import ZArith Ascii String Lia.
From stdpp Require Import base tactics option list.

Local Open Scope Z_scope.

(** ** Outcomes of running C code *)

Inductive outcome (A : Type) : Type :=
| Returned (a : A)   (* the call returns, leaving [a] *)
| Undefined          (* the call has undefined behaviour *)
| OutOfFuel.         (* the model of a loop ran out of steps *)

Arguments Returned {A} a.
Arguments Undefined {A}.
Arguments OutOfFuel {A}.

Definition bind {A B : Type} (m : outcome A) (k : A -> outcome B) : outcome B :=
  match m with
  | Returned a => k a
  | Undefined => Undefined
  | OutOfFuel => OutOfFuel
  end.

Declare Scope outcome_scope.
Delimit Scope outcome_scope with outcome.
Notation "'do' x <- m ; k" := (bind m (fun x => k))
  (at level 10, x name, m at level 100, k at level 200) : outcome_scope.
Local Open Scope outcome_scope.

(** ** Machine integers and characters *)

(** [char text[128]] *)
Definition MAX_LINE_LEN : Z := 128.

Definition INT_MIN : Z := - 2 ^ 31.
Definition INT_MAX : Z := 2 ^ 31 - 1.

(** The values of an [int] argument. *)
Definition is_int (x : Z) : Prop := INT_MIN <= x <= INT_MAX.

(** An [int] compared with a [size_t] is first converted to [size_t]
    (64 bits here; a negative [int] becomes a value above every line
    length for a 32-bit [size_t] as well). *)
Definition to_size_t (i : Z) : Z := i mod 2 ^ 64.

(** The terminator and the padding character. *)
Definition NUL : ascii := Ascii.zero.
Definition SPACE : ascii := " "%char.

(** [c == 0] *)
Definition is_nul (c : ascii) : bool := Ascii.eqb c NUL.

(** Storing an [int] into a [char] keeps its low byte. *)
Definition to_char (ch : Z) : ascii := ascii_of_N (Z.to_N (ch mod 256)).

(** Reading a [char] back as an [int] (the byte value). *)
Definition of_char (c : ascii) : Z := Z.of_N (N_of_ascii c).

(** ** The text array of a node *)

(** [text[i]] as a value: defined inside the array only. *)
Definition text_read (t : list ascii) (i : Z) : outcome ascii :=
  if (0 <=? i) && (i <? MAX_LINE_LEN) then
    match t !! Z.to_nat i with
    | Some c => Returned c
    | None => Undefined
    end
  else Undefined.

(** [text[i] = c]: defined inside the array only. *)
Definition text_write (t : list ascii) (i : Z) (c : ascii) : outcome (list ascii) :=
  if (0 <=? i) && (i <? MAX_LINE_LEN) then
    match t !! Z.to_nat i with
    | Some _ => Returned (<[Z.to_nat i := c]> t)
    | None => Undefined
    end
  else Undefined.

(** The logical content: the characters before the first terminator. *)
Fixpoint content (t : list ascii) : list ascii :=
  match t with
  | [] => []
  | c :: r => if is_nul c then [] else c :: content r
  end.

(** Whether the array holds a terminator. *)
Definition terminated (t : list ascii) : bool :=
  existsb is_nul t.

(** [strlen(text)]: the scan leaves the array when it holds no terminator. *)
Definition strlen (t : list ascii) : outcome Z :=
  if terminated t then Returned (Z.of_nat (length (content t))) else Undefined.

(** *** The loops of [buffer_remove_character]

    [for (int i = x - 1; i < strlen(text); i++) text[i] = text[i + 1];]
    [strlen] is evaluated before every iteration and the comparison is
    unsigned.  [i] grows and stays below [strlen(text) < 128], so 129 steps
    are never used up ([remove_shift_fuel] below). *)
Fixpoint remove_shift (fuel : nat) (t : list ascii) (i : Z) : outcome (list ascii) :=
  match fuel with
  | O => OutOfFuel
  | S fuel' =>
      do len <- strlen t;
      if to_size_t i <? len then
        do c <- text_read t (i + 1);
        do t' <- text_write t i c;
        remove_shift fuel' t' (i + 1)
      else Returned t
  end.

(** The body of [buffer_remove_character] on the text of the current node. *)
Definition remove_in_text (x : Z) (t : list ascii) : outcome (list ascii) :=
  if x - 1 <? INT_MIN then Undefined  (* signed overflow of [x - 1] *)
  else
    do t1 <- remove_shift (S (Z.to_nat MAX_LINE_LEN)) t (x - 1);
    do len <- strlen t1;
    text_write t1 len NUL.

(** *** The loops of [buffer_insert_character]

    [for (int i = 0; i < x; i++) if (text[i] == 0) text[i] = ' ';]
    with [n] iterations left and the loop variable at [i]. *)
Fixpoint gap_fill (n : nat) (t : list ascii) (i : Z) : outcome (list ascii) :=
  match n with
  | O => Returned t
  | S n' =>
      do c <- text_read t i;
      do t' <- (if is_nul c then text_write t i SPACE else Returned t);
      gap_fill n' t' (i + 1)
  end.

(** [for (int i = strlen(text); i >= x; i--) text[i + 1] = text[i];]
    with [n] iterations left and the loop variable at [i]. *)
Fixpoint shift_right (n : nat) (t : list ascii) (i : Z) : outcome (list ascii) :=
  match n with
  | O => Returned t
  | S n' =>
      do c <- text_read t i;
      do t' <- text_write t (i + 1) c;
      shift_right n' t' (i - 1)
  end.

(** The body of [buffer_insert_character] on the text of the current node. *)
Definition insert_in_text (ch x : Z) (t : list ascii) : outcome (list ascii) :=
  do t1 <- gap_fill (Z.to_nat x) t 0;
  do c <- text_read t1 x;
  do t2 <- (if is_nul c then Returned t1
            else do len <- strlen t1;
                 shift_right (Z.to_nat (len - x + 1)) t1 len);
  text_write t2 x (to_char ch).

(** ** Nodes, the heap and the buffer *)

Record node_t : Type := Node { text : list ascii; next : option nat }.

(** The [Buffer] struct ([head], [current]) with the heap of nodes its
    pointers lead into; a node's address is its index in [heap]. *)
Record Buffer : Type := Buf {
  heap : list node_t;
  head : option nat;
  current : option nat
}.

(** [Buffer b = { 0 };] *)
Definition empty_buffer : Buffer := Buf [] None None.

(** The array of a node that [calloc] returns. *)
Definition empty_text : list ascii := replicate (Z.to_nat MAX_LINE_LEN) NUL.

(** [calloc(1, sizeof(node_t))]: a zeroed node at a fresh address
    (allocation is taken to succeed). *)
Definition calloc_node (h : list node_t) : list node_t * nat :=
  (h ++ [Node empty_text None], length h).

(** [*p] *)
Definition deref (h : list node_t) (p : option nat) : outcome node_t :=
  match p with
  | None => Undefined
  | Some a => match h !! a with Some n => Returned n | None => Undefined end
  end.

(** One iteration of the loop of [buffer_select_node]. *)
Definition select_step (b : Buffer) : outcome Buffer :=
  match current b with
  | None => Undefined
  | Some a =>
      do n <- deref (heap b) (Some a);
      let h1 :=
        match next n with
        | None =>
            let '(h', p) := calloc_node (heap b) in
            <[a := Node (text n) (Some p)]> h'
        | Some _ => heap b
        end in
      do n1 <- deref h1 (Some a);
      Returned (Buf h1 (head b) (next n1))
  end.

(** [for (int i = 0; i < y; i++) ...] with [n] iterations left. *)
Fixpoint select_walk (n : nat) (b : Buffer) : outcome Buffer :=
  match n with
  | O => Returned b
  | S n' => do b' <- select_step b; select_walk n' b'
  end.

Definition buffer_select_node (b : Buffer) (y : Z) : outcome Buffer :=
  let b1 :=
    match head b with
    | None => let '(h', p) := calloc_node (heap b) in Buf h' (Some p) (Some p)
    | Some _ => b
    end in
  select_walk (Z.to_nat y) (Buf (heap b1) (head b1) (head b1)).

(** Run [f] on [b->current->text] and store the result there. *)
Definition on_current_text (f : list ascii -> outcome (list ascii)) (b : Buffer)
  : outcome Buffer :=
  match current b with
  | None => Undefined
  | Some a =>
      do n <- deref (heap b) (Some a);
      do t' <- f (text n);
      Returned (Buf (<[a := Node t' (next n)]> (heap b)) (head b) (current b))
  end.

Definition buffer_remove_character (b : Buffer) (x y : Z) : outcome Buffer :=
  do b1 <- buffer_select_node b y;
  on_current_text (remove_in_text x) b1.

Definition buffer_insert_character (b : Buffer) (ch x y : Z) : outcome Buffer :=
  do b1 <- buffer_select_node b y;
  on_current_text (insert_in_text ch x) b1.

(** The walk of [main] that prints the lines:
    [while (iter != NULL) { ...iter->text...; iter = iter->next; }].
    A chain without cycle visits every node of the heap at most once. *)
Fixpoint walk (fuel : nat) (h : list node_t) (p : option nat) : list (list ascii) :=
  match fuel, p with
  | S fuel', Some a =>
      match h !! a with
      | Some n => text n :: walk fuel' h (next n)
      | None => []
      end
  | _, _ => []
  end.

Definition lines (b : Buffer) : list (list ascii) :=
  walk (length (heap b)) (heap b) (head b).

(** The logical content of row [r]; a row that does not exist yet is empty
    (it is created empty when it is first selected). *)
Definition row_content (b : Buffer) (r : nat) : list ascii :=
  match lines b !! r with
  | Some t => content t
  | None => []
  end.

(** The row that an [int y] selects. *)
Definition row_of (y : Z) : nat := Z.to_nat y.

(** The lines of [b] with empty lines added up to row [r]. *)
Definition extended (b : Buffer) (r : nat) : list (list ascii) :=
  lines b ++ replicate (S r - length (lines b)) empty_text.

(** Typing the characters of [s] from column [x] on, as [main] does for
    printable keys ([buffer_insert_character] followed by [x++]). *)
Fixpoint type_chars (b : Buffer) (s : list ascii) (x y : Z) : outcome Buffer :=
  match s with
  | [] => Returned b
  | c :: s' =>
      do b' <- buffer_insert_character b (of_char c) x y;
      type_chars b' s' (x + 1) y
  end.

Definition type_string (b : Buffer) (s : string) (y : Z) : outcome Buffer :=
  type_chars b (list_ascii_of_string s) 0 y.

(** ** The key dispatch of [main] *)

(** [isprint] of the C locale: the characters from space to tilde. *)
Definition isprint (ch : Z) : bool := (32 <=? ch) && (ch <=? 126).

(** The value of [ch] as the [switch] of [main] tells it apart: one of the
    five keys with a case of their own, or any other value. *)
Inductive key : Type :=
| KeyRight | KeyLeft | KeyUp | KeyDown | KeyDelete
| KeyOther (ch : Z).

(** The variables of [main] that a key changes. *)
Record editor : Type := Editor {
  buffer : Buffer;
  cursor_x : Z;
  cursor_y : Z
}.

(** [a + d] on [int]: overflow is undefined behaviour. *)
Definition int_add (a d : Z) : outcome Z :=
  if (INT_MIN <=? a + d) && (a + d <=? INT_MAX) then Returned (a + d)
  else Undefined.

(** The [switch (ch)] of the main loop. *)
Definition handle_key (e : editor) (k : key) : outcome editor :=
  match k with
  | KeyRight =>
      do x' <- int_add (cursor_x e) 1;
      Returned (Editor (buffer e) x' (cursor_y e))
  | KeyLeft =>
      do x' <- int_add (cursor_x e) (-1);
      Returned (Editor (buffer e) x' (cursor_y e))
  | KeyUp =>
      do y' <- int_add (cursor_y e) (-1);
      Returned (Editor (buffer e) (cursor_x e) y')
  | KeyDown =>
      do y' <- int_add (cursor_y e) 1;
      Returned (Editor (buffer e) (cursor_x e) y')
  | KeyDelete =>
      do b' <- buffer_remove_character (buffer e) (cursor_x e) (cursor_y e);
      do x' <- int_add (cursor_x e) (-1);
      Returned (Editor b' x' (cursor_y e))
  | KeyOther ch =>
      if isprint ch then
        do b' <- buffer_insert_character (buffer e) ch (cursor_x e) (cursor_y e);
        do x' <- int_add (cursor_x e) 1;
        Returned (Editor b' x' (cursor_y e))
      else Returned e
  end.

(** [int x = 0; int y = 0; Buffer b = { 0 };] *)
Definition initial_editor : editor := Editor empty_buffer 0 0.

(** The keys of [ks] handled in turn. *)
Fixpoint handle_keys (e : editor) (ks : list key) : outcome editor :=
  match ks with
  | [] => Returned e
  | k :: ks' => do e' <- handle_key e k; handle_keys e' ks'
  end.

(** ** Well-formed lines

    A line as the editor builds it: 128 characters, a terminator among
    them, and nothing but terminators after the first one (the node came
    zeroed from [calloc]). *)
Definition line_ok (t : list ascii) : bool :=
  (length t =? Z.to_nat MAX_LINE_LEN)%nat
  && terminated t
  && forallb is_nul (drop (length (content t)) t).

(** The array that holds the content [s]. *)
Definition padded (s : list ascii) : list ascii :=
  s ++ replicate (Z.to_nat MAX_LINE_LEN - length s) NUL.

(** No terminator among the characters of [s]. *)
Definition printable (s : list ascii) : Prop :=
  Forall (fun c => is_nul c = false) s.

(** Arithmetic on positions, with the capacity made explicit. *)
Ltac pos_arith :=
  unfold MAX_LINE_LEN in *;
  repeat progress (rewrite ?length_app in *; cbn [length] in * );
  lia.

(** What the first loop of the insert leaves at a position that held [c]. *)
Definition fill (c : ascii) : ascii := if is_nul c then SPACE else c.

(** ** The linked list in the heap *)

(** The nodes from pointer [p] on, following [next] up to [NULL], sit at
    the addresses [addrs]. *)
Fixpoint list_seg (h : list node_t) (p : option nat) (addrs : list nat) : Prop :=
  match addrs with
  | [] => p = None
  | a :: rest => p = Some a /\ exists n, h !! a = Some n /\ list_seg h (next n) rest
  end.

(** The addresses of the list of [b], in row order, without repetition. *)
Definition chain_of (b : Buffer) (addrs : list nat) : Prop :=
  NoDup addrs /\ list_seg (heap b) (head b) addrs.

(** The same, computed: follow [next] from [p] for at most [fuel] nodes. *)
Fixpoint chain (fuel : nat) (h : list node_t) (p : option nat) : option (list nat) :=
  match p with
  | None => Some []
  | Some a =>
      match fuel with
      | O => None
      | S fuel' =>
          match h !! a with
          | Some n => cons a <$> chain fuel' h (next n)
          | None => None
          end
      end
  end.

(** A linked store: [head] leads through distinct nodes to [NULL]. *)
Definition linked (b : Buffer) : bool :=
  match chain (length (heap b)) (heap b) (head b) with
  | Some addrs => bool_decide (NoDup addrs)
  | None => false
  end.

(** A well-formed store: linked, and every line is well formed. *)
Definition well_formed (b : Buffer) : bool :=
  linked b && forallb line_ok (lines b).

(** The text of the node at address [a]. *)
Definition text_at (h : list node_t) (a : nat) : list ascii :=
  match h !! a with
  | Some n => text n
  | None => []
  end.

(** ** Sample stores *)

(** One line, ["abc"]. *)
Definition abc_buffer : Buffer :=
  Buf [Node (padded (list_ascii_of_string "abc")) None] (Some 0%nat) (Some 0%nat).

(** Two lines, ["Hi"] and ["there"], with [current] on the second. *)
Definition two_lines : Buffer :=
  Buf [Node (padded (list_ascii_of_string "Hi")) (Some 1%nat);
       Node (padded (list_ascii_of_string "there")) None]
      (Some 0%nat) (Some 1%nat).

(** One line of 127 characters: the line is full. *)
Definition full_line : Buffer :=
  Buf [Node (padded (replicate 127 "a"%char)) None] (Some 0%nat) (Some 0%nat).

(** A call fails when it does not return normally.  The buffer functions
    are [void] and keep no error state, so they have no other way to fail. *)
Definition fails {A : Type} (o : outcome A) : Prop :=
  match o with
  | Returned _ => False
  | _ => True
  end.

(** * Properties *)

(** ** The model runs *)

Example select_3 :
  (do b <- buffer_select_node empty_buffer 3; Returned (length (lines b), current b))
  = Returned (4%nat, Some 3%nat).
Proof. vm_compute. reflexivity. Qed.

Example hi :
  (do b <- type_string empty_buffer "Hi" 0;
   do b <- buffer_remove_character b 1 0;
   Returned (string_of_list_ascii (row_content b 0)))
  = Returned "i"%string.
Proof. vm_compute. reflexivity. Qed.

Example abc_buffer_typed : type_string empty_buffer "abc" 0 = Returned abc_buffer.
Proof. vm_compute. reflexivity. Qed.

Example two_lines_typed :
  (do b <- type_string empty_buffer "Hi" 0; type_string b "there" 1)
  = Returned two_lines.
Proof. vm_compute. reflexivity. Qed.

Example keys_hi :
  (do e <- handle_keys initial_editor
             [KeyOther (of_char "H"); KeyOther (of_char "i"); KeyDelete; KeyLeft];
   Returned (string_of_list_ascii (row_content (buffer e) 0), cursor_x e, cursor_y e))
  = Returned ("H"%string, 0, 0).
Proof. vm_compute. reflexivity. Qed.

(** ** Facts about characters and arrays *)

Lemma is_nul_true c : is_nul c = true <-> c = NUL.
Proof. unfold is_nul. apply Ascii.eqb_eq. Qed.

Lemma is_nul_NUL : is_nul NUL = true.
Proof. reflexivity. Qed.

Lemma to_char_of_char c : to_char (of_char c) = c.
Proof.
  unfold to_char, of_char.
  pose proof (N_ascii_bounded c) as Hb.
  rewrite Z.mod_small by lia.
  rewrite N2Z.id. apply ascii_N_embedding.
Qed.

Lemma content_printable t : printable (content t).
Proof.
  induction t as [|c r IH]; simpl; [constructor|].
  destruct (is_nul c) eqn:E; constructor; assumption.
Qed.

Lemma content_app_nul s r : printable s -> content (s ++ NUL :: r) = s.
Proof.
  induction 1 as [|c s Hc _ IH]; simpl; [reflexivity|].
  rewrite Hc, IH. reflexivity.
Qed.

Lemma content_all s : printable s -> content s = s.
Proof.
  induction 1 as [|c s Hc _ IH]; simpl; [reflexivity|].
  rewrite Hc, IH. reflexivity.
Qed.

Lemma terminated_app_nul s r : terminated (s ++ NUL :: r) = true.
Proof.
  unfold terminated. rewrite existsb_app. simpl. apply orb_true_r.
Qed.

Lemma terminated_printable s : printable s -> terminated s = false.
Proof.
  unfold terminated.
  induction 1 as [|c s Hc _ IH]; simpl; [reflexivity|].
  rewrite Hc, IH. reflexivity.
Qed.

Lemma content_prefix t : t = content t ++ drop (length (content t)) t.
Proof.
  induction t as [|c r IH]; simpl; [reflexivity|].
  destruct (is_nul c); simpl; congruence.
Qed.

Lemma forallb_is_nul_replicate (l : list ascii) :
  forallb is_nul l = true -> l = replicate (length l) NUL.
Proof.
  induction l as [|c l IH]; simpl; [reflexivity|].
  intros [Hc Hl]%andb_true_iff. apply is_nul_true in Hc. subst c.
  f_equal. auto.
Qed.

Lemma strlen_app_nul s r :
  printable s -> strlen (s ++ NUL :: r) = Returned (Z.of_nat (length s)).
Proof.
  intros Hs. unfold strlen. rewrite terminated_app_nul, content_app_nul; auto.
Qed.

Lemma strlen_printable s : printable s -> strlen s = Undefined.
Proof. intros Hs. unfold strlen. rewrite terminated_printable; auto. Qed.

Lemma length_padded s :
  (length s <= Z.to_nat MAX_LINE_LEN)%nat ->
  length (padded s) = Z.to_nat MAX_LINE_LEN.
Proof. intros H. unfold padded. rewrite length_app, length_replicate. lia. Qed.

Lemma padded_nul s :
  (length s < Z.to_nat MAX_LINE_LEN)%nat ->
  padded s = s ++ NUL :: replicate (Z.to_nat MAX_LINE_LEN - S (length s)) NUL.
Proof.
  intros H. unfold padded.
  replace (Z.to_nat MAX_LINE_LEN - length s)%nat
    with (S (Z.to_nat MAX_LINE_LEN - S (length s))) by lia.
  reflexivity.
Qed.

Lemma content_padded s :
  printable s -> (length s < Z.to_nat MAX_LINE_LEN)%nat -> content (padded s) = s.
Proof. intros Hs Hl. rewrite padded_nul by assumption. apply content_app_nul, Hs. Qed.

Lemma empty_text_padded : empty_text = padded [].
Proof. reflexivity. Qed.

(** A well-formed line is the padding of its content, and conversely. *)
Lemma line_ok_padded t :
  line_ok t = true ->
  t = padded (content t) /\ (length (content t) < Z.to_nat MAX_LINE_LEN)%nat.
Proof.
  unfold line_ok. intros [[Hlen Hterm]%andb_true_iff Htail]%andb_true_iff.
  apply Nat.eqb_eq in Hlen.
  pose proof (content_prefix t) as Hp.
  apply forallb_is_nul_replicate in Htail.
  rewrite length_drop, Hlen in Htail.
  assert (length (content t) <= length t)%nat as Hle.
  { rewrite Hp at 2. rewrite length_app. lia. }
  split.
  - unfold padded. rewrite <- Htail. exact Hp.
  - destruct (decide (length (content t) < Z.to_nat MAX_LINE_LEN)%nat) as [|Hn]; [assumption|].
    exfalso. rewrite drop_ge in Hp by lia. rewrite app_nil_r in Hp.
    rewrite Hp, terminated_printable in Hterm by apply content_printable.
    discriminate.
Qed.

Lemma padded_line_ok s :
  printable s -> (length s < Z.to_nat MAX_LINE_LEN)%nat -> line_ok (padded s) = true.
Proof.
  intros Hs Hl. unfold line_ok.
  rewrite length_padded by lia. rewrite Nat.eqb_refl. simpl.
  rewrite content_padded by assumption.
  rewrite padded_nul at 1 by assumption. rewrite terminated_app_nul. simpl.
  unfold padded. rewrite drop_app_length.
  apply forallb_forall. intros c Hc. apply list_elem_of_In, elem_of_replicate in Hc as [-> _]. reflexivity.
Qed.

(** ** Reading and writing an array by position *)

Lemma text_read_middle pre c r i :
  i = Z.of_nat (length pre) -> i < MAX_LINE_LEN ->
  text_read (pre ++ c :: r) i = Returned c.
Proof.
  intros -> Hi. unfold text_read.
  replace ((0 <=? _) && (_ <? MAX_LINE_LEN)) with true
    by (symmetry; apply andb_true_iff; split; [apply Z.leb_le|apply Z.ltb_lt]; lia).
  rewrite Nat2Z.id, list_lookup_middle by reflexivity. reflexivity.
Qed.

Lemma text_write_middle pre c d r i :
  i = Z.of_nat (length pre) -> i < MAX_LINE_LEN ->
  text_write (pre ++ c :: r) i d = Returned (pre ++ d :: r).
Proof.
  intros -> Hi. unfold text_write.
  replace ((0 <=? _) && (_ <? MAX_LINE_LEN)) with true
    by (symmetry; apply andb_true_iff; split; [apply Z.leb_le|apply Z.ltb_lt]; lia).
  rewrite Nat2Z.id, list_lookup_middle by reflexivity.
  rewrite insert_app_r_alt by lia. rewrite Nat.sub_diag. reflexivity.
Qed.

Lemma text_read_outside t i :
  i < 0 \/ MAX_LINE_LEN <= i -> text_read t i = Undefined.
Proof.
  intros Hi. unfold text_read.
  destruct (0 <=? i) eqn:E1; [|reflexivity].
  destruct (i <? MAX_LINE_LEN) eqn:E2; [|reflexivity].
  apply Z.leb_le in E1. apply Z.ltb_lt in E2. lia.
Qed.

Lemma text_write_length t i c t' :
  text_write t i c = Returned t' -> length t' = length t.
Proof.
  unfold text_write. intros H.
  destruct ((0 <=? i) && (i <? MAX_LINE_LEN)); [|discriminate].
  destruct (t !! Z.to_nat i); [|discriminate].
  injection H as <-. apply length_insert.
Qed.

Lemma text_access_inside (t : list ascii) i :
  length t = Z.to_nat MAX_LINE_LEN -> 0 <= i < MAX_LINE_LEN ->
  exists pre c r, t = pre ++ c :: r /\ i = Z.of_nat (length pre).
Proof.
  intros Hlen Hi.
  destruct (lookup_lt_is_Some_2 t (Z.to_nat i)) as [c Hc]; [lia|].
  exists (take (Z.to_nat i) t), c, (drop (S (Z.to_nat i)) t). split.
  - symmetry. apply take_drop_middle, Hc.
  - rewrite length_take_le by lia. lia.
Qed.

Lemma to_size_t_small i : 0 <= i <= MAX_LINE_LEN -> to_size_t i = i.
Proof.
  unfold MAX_LINE_LEN, to_size_t. intros H. apply Z.mod_small.
  change (2 ^ 64) with 18446744073709551616. lia.
Qed.

Lemma to_size_t_negative i : INT_MIN <= i < 0 -> MAX_LINE_LEN < to_size_t i.
Proof.
  unfold to_size_t, INT_MIN, MAX_LINE_LEN.
  change (2 ^ 64) with 18446744073709551616. change (2 ^ 31) with 2147483648.
  intros H.
  replace i with (i + 18446744073709551616 + (-1) * 18446744073709551616) by lia.
  rewrite Z.mod_add by lia. rewrite Z.mod_small; lia.
Qed.

Lemma to_size_t_int i : 0 <= i <= INT_MAX -> to_size_t i = i.
Proof.
  unfold INT_MAX, to_size_t. change (2 ^ 31) with 2147483648.
  intros H. apply Z.mod_small.
  change (2 ^ 64) with 18446744073709551616. lia.
Qed.

(** ** The loops of the delete operation *)

(** The loop closes the gap at [length pre]: it copies [suf] and the
    terminator one place to the left and then stops, because the copied
    terminator has shortened the string. *)
Lemma remove_shift_closes suf : forall pre c zs fuel,
  printable pre -> is_nul c = false -> printable suf ->
  Z.of_nat (length pre + S (length suf)) < MAX_LINE_LEN ->
  (length suf + 1 < fuel)%nat ->
  remove_shift fuel (pre ++ c :: suf ++ NUL :: zs) (Z.of_nat (length pre))
  = Returned (pre ++ suf ++ NUL :: NUL :: zs).
Proof.
  induction suf as [|d suf IH]; intros pre c zs fuel Hpre Hc Hsuf Hlen Hfuel.
  - destruct fuel as [|[|fuel]]; [simpl in Hfuel; lia..|].
    cbn [remove_shift app]. 
    replace (pre ++ c :: NUL :: zs) with ((pre ++ [c]) ++ NUL :: zs)
      by (rewrite <- app_assoc; reflexivity).
    rewrite strlen_app_nul by (apply Forall_app; split; [assumption|repeat constructor; assumption]).
    cbn [bind]. rewrite to_size_t_small by pos_arith.
    rewrite length_app. cbn [length].
    replace (_ <? _) with true by (symmetry; apply Z.ltb_lt; lia).
    rewrite (text_read_middle (pre ++ [c]) NUL zs)
      by (rewrite ?length_app; cbn [length] in *; lia).
    cbn [bind]. rewrite <- app_assoc. cbn [app].
    rewrite (text_write_middle pre c NUL) by (cbn [length] in *; lia).
    cbn [bind]. rewrite strlen_app_nul by assumption. cbn [bind].
    rewrite to_size_t_small by pos_arith.
    replace (_ <? _) with false by (symmetry; apply Z.ltb_ge; lia).
    reflexivity.
  - destruct fuel as [|fuel]; [lia|].
    apply Forall_cons in Hsuf as [Hd Hsuf].
    cbn [remove_shift app].
    replace (pre ++ c :: d :: suf ++ NUL :: zs)
      with ((pre ++ c :: d :: suf) ++ NUL :: zs)
      by (rewrite <- app_assoc; reflexivity).
    rewrite strlen_app_nul
      by (apply Forall_app; split; [assumption|repeat constructor; assumption]).
    rewrite <- app_assoc. cbn [app bind].
    rewrite to_size_t_small by pos_arith.
    rewrite length_app. cbn [length] in Hlen |- *.
    replace (_ <? _) with true by (symmetry; apply Z.ltb_lt; lia).
    replace (pre ++ c :: d :: suf ++ NUL :: zs)
      with ((pre ++ [c]) ++ d :: suf ++ NUL :: zs) at 1
      by (rewrite <- app_assoc; reflexivity).
    rewrite (text_read_middle (pre ++ [c]) d)
      by (rewrite ?length_app; cbn [length]; lia).
    cbn [bind]. rewrite (text_write_middle pre c d) by lia. cbn [bind].
    replace (pre ++ d :: d :: suf ++ NUL :: zs)
      with ((pre ++ [d]) ++ d :: suf ++ NUL :: zs)
      by (rewrite <- app_assoc; reflexivity).
    replace (Z.of_nat (length pre) + 1) with (Z.of_nat (length (pre ++ [d])))
      by (rewrite length_app; cbn [length]; lia).
    rewrite IH.
    + rewrite <- app_assoc. reflexivity.
    + apply Forall_app; split; [assumption|repeat constructor; assumption].
    + assumption.
    + assumption.
    + pos_arith.
    + pos_arith.
Qed.

(** The loop does nothing when its first comparison fails: at a position
    at or after the terminator, and at the negative position [x - 1] of
    [x <= 0], which the unsigned comparison reads as a huge value. *)
Lemma remove_shift_skips t len i fuel :
  strlen t = Returned len -> 0 <= len <= MAX_LINE_LEN ->
  INT_MIN <= i <= INT_MAX -> i < 0 \/ len <= i ->
  remove_shift (S fuel) t i = Returned t.
Proof.
  intros Hs Hlen Hi Hcase. cbn [remove_shift]. rewrite Hs. cbn [bind].
  replace (to_size_t i <? len) with false; [reflexivity|].
  symmetry. apply Z.ltb_ge.
  destruct (Z_lt_le_dec i 0) as [Hneg|Hpos].
  - pose proof (to_size_t_negative i). lia.
  - rewrite to_size_t_int; lia.
Qed.

Lemma strlen_padded s :
  printable s -> (length s < Z.to_nat MAX_LINE_LEN)%nat ->
  strlen (padded s) = Returned (Z.of_nat (length s)).
Proof.
  intros Hs Hl. rewrite padded_nul by assumption. apply strlen_app_nul, Hs.
Qed.

(** [text[strlen(text)] = 0] rewrites the terminator. *)
Lemma write_terminator s :
  printable s -> (length s < Z.to_nat MAX_LINE_LEN)%nat ->
  (do len <- strlen (padded s); text_write (padded s) len NUL)
  = Returned (padded s).
Proof.
  intros Hs Hl. rewrite strlen_padded by assumption. cbn [bind].
  rewrite padded_nul by assumption.
  apply text_write_middle; [reflexivity|pos_arith].
Qed.

Lemma remove_in_text_skips s x :
  printable s -> (length s < Z.to_nat MAX_LINE_LEN)%nat ->
  INT_MIN < x <= INT_MAX -> x <= 0 \/ Z.of_nat (length s) < x ->
  remove_in_text x (padded s) = Returned (padded s).
Proof.
  intros Hs Hl Hx Hcase. unfold remove_in_text.
  destruct (Z.ltb_spec (x - 1) INT_MIN) as [Hov|Hno]; [lia|].
  rewrite (remove_shift_skips _ (Z.of_nat (length s))).
  - cbn [bind]. apply write_terminator; assumption.
  - apply strlen_padded; assumption.
  - pos_arith.
  - lia.
  - lia.
Qed.

(** Deleting inside the content removes the character before [x]. *)
Lemma remove_in_text_closes s x :
  printable s -> (length s < Z.to_nat MAX_LINE_LEN)%nat ->
  1 <= x <= Z.of_nat (length s) ->
  remove_in_text x (padded s)
  = Returned (padded (take (Z.to_nat (x - 1)) s ++ drop (Z.to_nat x) s)).
Proof.
  intros Hs Hl Hx. unfold remove_in_text.
  destruct (Z.ltb_spec (x - 1) INT_MIN) as [Hov|Hno]; [unfold INT_MIN in Hov; lia|].
  set (k := Z.to_nat (x - 1)).
  assert (k < length s)%nat as Hk by lia.
  destruct (lookup_lt_is_Some_2 s k Hk) as [c Hc].
  pose proof (take_drop_middle s k c Hc) as Hsplit.
  replace (Z.to_nat x) with (S k) by lia.
  set (pre := take k s) in *. set (suf := drop (S k) s) in *.
  assert (length pre = k) as Hpre by (apply length_take_le; lia).
  assert (length s = S (length pre + length suf)) as Hlen.
  { rewrite <- Hsplit at 1. rewrite length_app. cbn [length]. lia. }
  assert (printable pre /\ is_nul c = false /\ printable suf) as (Hp & Hcn & Hsf).
  { unfold printable in *. rewrite <- Hsplit in Hs.
    apply Forall_app in Hs as [Hp Hs]. apply Forall_cons in Hs as [Hcn Hsf]. auto. }
  rewrite padded_nul by assumption. rewrite <- Hsplit at 1.
  rewrite <- app_assoc. cbn [app].
  replace (x - 1) with (Z.of_nat (length pre)) by lia.
  rewrite remove_shift_closes; try assumption; [|pos_arith..].
  cbn [bind].
  assert (length (pre ++ suf) < Z.to_nat MAX_LINE_LEN)%nat as Hl' by pos_arith.
  assert (pre ++ suf ++ NUL :: NUL :: replicate (Z.to_nat MAX_LINE_LEN - S (length s)) NUL
          = padded (pre ++ suf)) as ->.
  { rewrite padded_nul by assumption. rewrite <- app_assoc. do 3 f_equal.
    replace (Z.to_nat MAX_LINE_LEN - S (length (pre ++ suf)))%nat
      with (S (Z.to_nat MAX_LINE_LEN - S (length s))) by pos_arith.
    reflexivity. }
  apply write_terminator; [|assumption].
  apply Forall_app; split; assumption.
Qed.

Lemma content_length t : (length (content t) <= length t)%nat.
Proof.
  induction t as [|c r IH]; cbn [content length]; [lia|].
  destruct (is_nul c); cbn [length]; lia.
Qed.

Lemma text_read_inside t i c : text_read t i = Returned c -> 0 <= i < MAX_LINE_LEN.
Proof.
  unfold text_read.
  destruct (Z.leb_spec 0 i), (Z.ltb_spec i MAX_LINE_LEN); cbn [andb];
    try discriminate. lia.
Qed.

Lemma text_read_fuel t i : text_read t i <> OutOfFuel.
Proof.
  unfold text_read. destruct (_ && _); [|discriminate].
  destruct (t !! Z.to_nat i); discriminate.
Qed.

Lemma text_write_fuel t i c : text_write t i c <> OutOfFuel.
Proof.
  unfold text_write. destruct (_ && _); [|discriminate].
  destruct (t !! Z.to_nat i); discriminate.
Qed.

(** The steps given to the loop are never used up: it returns or its
    behaviour is undefined. *)
Lemma remove_shift_fuel fuel : forall (t : list ascii) i,
  (length t <= Z.to_nat MAX_LINE_LEN)%nat -> INT_MIN <= i <= INT_MAX ->
  (0 < fuel)%nat -> (0 <= i -> MAX_LINE_LEN - i < Z.of_nat fuel) ->
  remove_shift fuel t i <> OutOfFuel.
Proof.
  induction fuel as [|fuel IH]; intros t i Hlen Hi Hpos Hfuel; [lia|].
  cbn [remove_shift]. unfold strlen.
  destruct (terminated t); [|discriminate]. cbn [bind].
  pose proof (content_length t) as Hc.
  destruct (Z.ltb_spec (to_size_t i) (Z.of_nat (length (content t)))) as [Hlt|Hge];
    cbv iota; [|discriminate].
  assert (0 <= i) as Hi0.
  { destruct (Z_lt_le_dec i 0) as [Hneg|]; [|assumption].
    pose proof (to_size_t_negative i). pos_arith. }
  destruct (text_read t (i + 1)) as [c| |] eqn:Hr; cbn [bind];
    [|discriminate|exfalso; revert Hr; apply text_read_fuel].
  apply text_read_inside in Hr.
  destruct (text_write t i c) as [t'| |] eqn:Hw; cbn [bind];
    [|discriminate|exfalso; revert Hw; apply text_write_fuel].
  apply text_write_length in Hw.
  apply IH.
  - lia.
  - unfold INT_MAX in *. change (2 ^ 31) with 2147483648 in *. pos_arith.
  - pos_arith.
  - intros _. specialize (Hfuel Hi0). lia.
Qed.

Lemma remove_in_text_fuel (t : list ascii) x :
  (length t <= Z.to_nat MAX_LINE_LEN)%nat -> is_int x ->
  remove_in_text x t <> OutOfFuel.
Proof.
  unfold is_int. intros Hlen Hx. unfold remove_in_text.
  destruct (Z.ltb_spec (x - 1) INT_MIN); [discriminate|].
  destruct (remove_shift _ t (x - 1)) as [t1| |] eqn:Hsh; cbn [bind].
  - unfold strlen. destruct (terminated t1); cbn [bind]; [|discriminate].
    apply text_write_fuel.
  - discriminate.
  - exfalso. revert Hsh. apply remove_shift_fuel; [assumption|lia|lia|].
    intros. unfold MAX_LINE_LEN. lia.
Qed.

(** ** The loops of the insert operation *)

Lemma gap_fill_fills mid : forall pre rest i,
  i = Z.of_nat (length pre) ->
  Z.of_nat (length pre + length mid) <= MAX_LINE_LEN ->
  gap_fill (length mid) (pre ++ mid ++ rest) i
  = Returned (pre ++ map fill mid ++ rest).
Proof.
  induction mid as [|c mid IH]; intros pre rest i -> Hlen; [reflexivity|].
  cbn [length gap_fill app map].
  rewrite text_read_middle by pos_arith. cbn [bind].
  assert ((do t' <- (if is_nul c
                     then text_write (pre ++ c :: mid ++ rest) (Z.of_nat (length pre)) SPACE
                     else Returned (pre ++ c :: mid ++ rest));
           gap_fill (length mid) t' (Z.of_nat (length pre) + 1))
          = gap_fill (length mid) ((pre ++ [fill c]) ++ mid ++ rest)
              (Z.of_nat (length pre) + 1)) as ->.
  { unfold fill. rewrite <- app_assoc. cbn [app].
    destruct (is_nul c); [|reflexivity].
    rewrite text_write_middle by pos_arith. reflexivity. }
  rewrite IH by pos_arith. rewrite <- app_assoc. reflexivity.
Qed.

Lemma fill_printable s : printable s -> map fill s = s.
Proof.
  induction 1 as [|c s Hc _ IH]; cbn [map]; [reflexivity|].
  unfold fill at 1. rewrite Hc, IH. reflexivity.
Qed.

Lemma fill_terminators n : map fill (replicate n NUL) = replicate n SPACE.
Proof. induction n as [|n IH]; cbn; [reflexivity|]. f_equal. apply IH. Qed.

(** Past the end of the array the first loop reads outside it. *)
Lemma gap_fill_overrun n : forall (t : list ascii) i,
  length t = Z.to_nat MAX_LINE_LEN -> 0 <= i <= MAX_LINE_LEN ->
  MAX_LINE_LEN < i + Z.of_nat n ->
  gap_fill n t i = Undefined.
Proof.
  induction n as [|n IH]; intros t i Hlen Hi Hn; [lia|].
  cbn [gap_fill].
  destruct (Z.eq_dec i MAX_LINE_LEN) as [->|Hne].
  - rewrite text_read_outside by lia. reflexivity.
  - destruct (text_access_inside t i Hlen) as (pre & c & r & -> & Hpre); [lia|].
    rewrite text_read_middle by (assumption || lia). cbn [bind].
    destruct (is_nul c).
    + rewrite text_write_middle by (assumption || lia). cbn [bind].
      apply IH; [|lia|lia]. rewrite <- Hlen, !length_app. reflexivity.
    + cbn [bind]. apply IH; [assumption|lia|lia].
Qed.

Lemma shift_right_S n t i :
  shift_right (S n) t i
  = (do c <- text_read t i;
     do t' <- text_write t (i + 1) c;
     shift_right n t' (i - 1)).
Proof. reflexivity. Qed.

(** The second loop moves [a :: m] one place to the right, over [d]. *)
Lemma shift_right_moves m : forall pre a d rest,
  Z.of_nat (length pre + length m) + 1 < MAX_LINE_LEN ->
  shift_right (S (length m)) (pre ++ a :: m ++ d :: rest)
    (Z.of_nat (length pre + length m))
  = Returned (pre ++ a :: a :: m ++ rest).
Proof.
  induction m as [|e m IH] using rev_ind; intros pre a d rest Hlen.
  - cbn [length shift_right app]. rewrite Nat.add_0_r.
    rewrite text_read_middle by pos_arith. cbn [bind].
    replace (pre ++ a :: d :: rest) with ((pre ++ [a]) ++ d :: rest)
      by (rewrite <- app_assoc; reflexivity).
    rewrite text_write_middle by pos_arith. cbn [bind].
    rewrite <- app_assoc. reflexivity.
  - rewrite length_app in *. cbn [length] in *.
    replace (S (length m + 1)) with (S (S (length m))) by lia.
    rewrite shift_right_S.
    replace (pre ++ a :: (m ++ [e]) ++ d :: rest)
      with ((pre ++ a :: m) ++ e :: d :: rest)
      by (rewrite <- !app_assoc; reflexivity).
    rewrite text_read_middle by pos_arith. cbn [bind].
    replace ((pre ++ a :: m) ++ e :: d :: rest)
      with ((pre ++ a :: m ++ [e]) ++ d :: rest)
      by (rewrite <- !app_assoc; cbn [app]; rewrite <- app_assoc; reflexivity).
    rewrite text_write_middle by pos_arith. cbn [bind].
    replace ((pre ++ a :: m ++ [e]) ++ e :: rest)
      with (pre ++ a :: m ++ e :: e :: rest)
      by (rewrite <- !app_assoc; cbn [app]; rewrite <- app_assoc; reflexivity).
    replace (Z.of_nat (length pre + (length m + 1)) - 1)
      with (Z.of_nat (length pre + length m)) by lia.
    change (shift_right (S (length m)) (pre ++ a :: m ++ e :: e :: rest)
              (Z.of_nat (length pre + length m))
            = Returned (pre ++ a :: a :: (m ++ [e]) ++ rest)).
    rewrite IH by lia. rewrite <- app_assoc. reflexivity.
Qed.

Lemma printable_spaces n : printable (replicate n SPACE).
Proof. apply Forall_replicate. reflexivity. Qed.

(** The first loop on a well-formed line, up to a column past the content:
    the gap is filled with spaces. *)
Lemma gap_fill_gap s x :
  printable s -> Z.of_nat (length s) <= x <= MAX_LINE_LEN ->
  gap_fill (Z.to_nat x) (padded s) 0
  = Returned (padded (s ++ replicate (Z.to_nat x - length s) SPACE)).
Proof.
  intros Hs Hx.
  set (g := (Z.to_nat x - length s)%nat).
  assert (padded s = [] ++ (s ++ replicate g NUL)
                        ++ replicate (Z.to_nat MAX_LINE_LEN - Z.to_nat x) NUL) as ->.
  { unfold padded. cbn [app]. rewrite <- app_assoc. f_equal.
    rewrite <- replicate_add. f_equal. pos_arith. }
  replace (Z.to_nat x) with (length (s ++ replicate g NUL)) at 1
    by (rewrite length_app, length_replicate; pos_arith).
  rewrite gap_fill_fills;
    [|reflexivity|rewrite length_app, length_replicate; pos_arith].
  rewrite map_app, fill_printable, fill_terminators by assumption.
  cbn [app]. unfold padded. do 3 f_equal.
  rewrite length_app, length_replicate. pos_arith.
Qed.

(** The first loop up to a column inside the content changes nothing. *)
Lemma gap_fill_inside s x :
  printable s -> (length s <= Z.to_nat MAX_LINE_LEN)%nat ->
  0 <= x <= Z.of_nat (length s) ->
  gap_fill (Z.to_nat x) (padded s) 0 = Returned (padded s).
Proof.
  intros Hs Hl Hx.
  assert (padded s = [] ++ take (Z.to_nat x) s
                        ++ (drop (Z.to_nat x) s
                            ++ replicate (Z.to_nat MAX_LINE_LEN - length s) NUL)) as Hsplit.
  { unfold padded. cbn [app]. rewrite app_assoc, take_drop. reflexivity. }
  rewrite Hsplit at 1.
  replace (Z.to_nat x) with (length (take (Z.to_nat x) s)) at 1
    by (rewrite length_take_le; lia).
  rewrite gap_fill_fills;
    [|reflexivity|rewrite length_take_le by lia; pos_arith].
  rewrite fill_printable; [rewrite <- Hsplit; reflexivity|].
  apply Forall_take, Hs.
Qed.

(** Inserting at or past the end of the content: the gap is filled with
    spaces and the character is written at [x]. *)
Lemma insert_in_text_end s ch x :
  printable s -> Z.of_nat (length s) <= x < MAX_LINE_LEN ->
  insert_in_text ch x (padded s)
  = Returned (padded (s ++ replicate (Z.to_nat x - length s) SPACE ++ [to_char ch])).
Proof.
  intros Hs Hx. unfold insert_in_text.
  rewrite gap_fill_gap by (assumption || lia). cbn [bind].
  set (s' := s ++ replicate (Z.to_nat x - length s) SPACE).
  assert (length s' = Z.to_nat x) as Hlen
    by (unfold s'; rewrite length_app, length_replicate; lia).
  rewrite padded_nul by pos_arith.
  rewrite text_read_middle by pos_arith. cbn [bind].
  rewrite is_nul_NUL. cbn [bind].
  rewrite text_write_middle by pos_arith. f_equal.
  unfold padded, s'. rewrite <- !app_assoc. cbn [app]. do 4 f_equal.
  rewrite !length_app, length_replicate. cbn [length]. pos_arith.
Qed.

(** Inserting inside the content: the characters from [x] on move one place
    to the right and the character is written at [x]. *)
Lemma insert_in_text_inside s ch x :
  printable s -> 0 <= x < Z.of_nat (length s) ->
  Z.of_nat (length s) + 1 < MAX_LINE_LEN ->
  insert_in_text ch x (padded s)
  = Returned (padded (take (Z.to_nat x) s ++ to_char ch :: drop (Z.to_nat x) s)).
Proof.
  intros Hs Hx Hl. unfold insert_in_text.
  rewrite gap_fill_inside by (assumption || pos_arith). cbn [bind].
  set (k := Z.to_nat x).
  assert (k < length s)%nat as Hk by lia.
  destruct (lookup_lt_is_Some_2 s k Hk) as [a Ha].
  pose proof (take_drop_middle s k a Ha) as Hsplit.
  pose proof (drop_S s a k Ha) as Hdrop.
  set (pre := take k s) in *. set (suf := drop (S k) s) in *.
  assert (length pre = k) as Hpre by (apply length_take_le; lia).
  assert (length s = S (length pre + length suf)) as Hlen.
  { rewrite <- Hsplit at 1. rewrite length_app. cbn [length]. lia. }
  assert (is_nul a = false) as Han.
  { unfold printable in Hs. rewrite <- Hsplit in Hs.
    apply Forall_app in Hs as [_ Hs]. apply Forall_cons in Hs as [Han _]. exact Han. }
  set (zs := replicate (Z.to_nat MAX_LINE_LEN - S (S (length s))) NUL).
  assert (padded s = pre ++ a :: (suf ++ [NUL]) ++ NUL :: zs) as Hshape.
  { unfold padded. rewrite <- Hsplit at 1. rewrite <- !app_assoc. cbn [app].
    do 3 f_equal.
    replace (Z.to_nat MAX_LINE_LEN - length s)%nat
      with (S (S (Z.to_nat MAX_LINE_LEN - S (S (length s))))) by pos_arith.
    reflexivity. }
  rewrite Hshape at 1.
  rewrite text_read_middle by pos_arith. cbn [bind]. rewrite Han.
  rewrite strlen_padded by (assumption || pos_arith). cbn [bind].
  rewrite Hshape.
  replace (Z.to_nat (Z.of_nat (length s) - x + 1)) with (S (length (suf ++ [NUL])))
    by pos_arith.
  replace (Z.of_nat (length s)) with (Z.of_nat (length pre + length (suf ++ [NUL])))
    by pos_arith.
  rewrite shift_right_moves by pos_arith. cbn [bind].
  rewrite text_write_middle by pos_arith. f_equal.
  unfold padded. rewrite Hdrop. rewrite <- !app_assoc. cbn [app].
  do 4 f_equal. unfold zs.
  replace (Z.to_nat MAX_LINE_LEN - length (pre ++ to_char ch :: a :: suf))%nat
    with (S (Z.to_nat MAX_LINE_LEN - S (S (length s)))) by pos_arith.
  reflexivity.
Qed.

(** ** Facts about the linked list *)

Lemma list_seg_head h p addrs : list_seg h p addrs -> p = addrs !! 0%nat.
Proof. destruct addrs; cbn; [auto|]. intros [-> _]. reflexivity. Qed.

(** The list read position by position. *)
Lemma list_seg_lookup h : forall addrs p k a,
  list_seg h p addrs -> addrs !! k = Some a ->
  exists n, h !! a = Some n /\ next n = addrs !! S k.
Proof.
  induction addrs as [|a0 addrs IH]; intros p k a Hseg Hk; [discriminate|].
  destruct Hseg as [-> (n & Hn & Hrest)].
  destruct k as [|k]; cbn in Hk.
  - injection Hk as <-. exists n. split; [assumption|].
    cbn. apply (list_seg_head _ _ _ Hrest).
  - apply (IH _ _ _ Hrest Hk).
Qed.

Lemma list_seg_pointwise h : forall addrs p,
  p = addrs !! 0%nat ->
  (forall k a, addrs !! k = Some a ->
     exists n, h !! a = Some n /\ next n = addrs !! S k) ->
  list_seg h p addrs.
Proof.
  induction addrs as [|a0 addrs IH]; intros p Hp Hall; cbn in *; [assumption|].
  split; [assumption|].
  destruct (Hall 0%nat a0 eq_refl) as (n & Hn & Hnext).
  exists n. split; [assumption|].
  apply IH; [assumption|].
  intros k a Hk. apply (Hall (S k) a Hk).
Qed.

Lemma chain_list_seg fuel : forall h p addrs,
  chain fuel h p = Some addrs -> list_seg h p addrs.
Proof.
  induction fuel as [|fuel IH]; intros h [a|] addrs H; cbn in H;
    try discriminate; try (injection H as <-; reflexivity).
  destruct (h !! a) as [n|] eqn:Hn; [|discriminate].
  destruct (chain fuel h (next n)) as [rest|] eqn:Hrest; [|discriminate].
  injection H as <-. cbn. split; [reflexivity|].
  exists n. split; [assumption|]. apply IH, Hrest.
Qed.

Lemma list_seg_chain h : forall addrs p fuel,
  list_seg h p addrs -> (length addrs <= fuel)%nat ->
  chain fuel h p = Some addrs.
Proof.
  induction addrs as [|a addrs IH]; intros p fuel Hseg Hfuel; cbn in Hseg.
  - subst p. destruct fuel; reflexivity.
  - destruct Hseg as [-> (n & Hn & Hrest)].
    destruct fuel as [|fuel]; [cbn in Hfuel; lia|].
    cbn. rewrite Hn. rewrite (IH _ fuel Hrest) by (cbn in Hfuel; lia).
    reflexivity.
Qed.

Lemma list_seg_walk h : forall addrs p fuel,
  list_seg h p addrs -> (length addrs <= fuel)%nat ->
  walk fuel h p = map (text_at h) addrs.
Proof.
  induction addrs as [|a addrs IH]; intros p fuel Hseg Hfuel; cbn in Hseg.
  - subst p. destruct fuel; reflexivity.
  - destruct Hseg as [-> (n & Hn & Hrest)].
    destruct fuel as [|fuel]; [cbn in Hfuel; lia|].
    cbn. unfold text_at at 1. rewrite Hn. f_equal.
    apply IH; [assumption|cbn in Hfuel; lia].
Qed.

(** Distinct addresses of the heap are at most as many as its nodes. *)
Lemma chain_length h p addrs :
  NoDup addrs -> list_seg h p addrs -> (length addrs <= length h)%nat.
Proof.
  intros Hnd Hseg.
  assert (addrs ⊆+ seq 0 (length h)) as Hsub.
  { apply NoDup_submseteq; [assumption|].
    intros a [k Hk]%list_elem_of_lookup.
    destruct (list_seg_lookup _ _ _ _ _ Hseg Hk) as (n & Hn & _).
    apply elem_of_seq. apply lookup_lt_Some in Hn. lia. }
  apply submseteq_length in Hsub. rewrite length_seq in Hsub. exact Hsub.
Qed.

Lemma lines_chain b addrs :
  chain_of b addrs -> lines b = map (text_at (heap b)) addrs.
Proof.
  intros [Hnd Hseg]. unfold lines.
  apply list_seg_walk; [assumption|]. eapply chain_length; eassumption.
Qed.

Lemma linked_chain b : linked b = true <-> exists addrs, chain_of b addrs.
Proof.
  unfold linked. split.
  - destruct (chain _ _ _) as [addrs|] eqn:Hc; [|discriminate].
    intros Hnd%bool_decide_eq_true. exists addrs.
    split; [assumption|]. eapply chain_list_seg, Hc.
  - intros (addrs & Hnd & Hseg).
    rewrite (list_seg_chain _ _ _ _ Hseg) by (eapply chain_length; eassumption).
    apply bool_decide_eq_true, Hnd.
Qed.

Lemma well_formed_chain b :
  well_formed b = true <->
  (exists addrs, chain_of b addrs) /\ Forall (fun t => line_ok t = true) (lines b).
Proof.
  unfold well_formed. rewrite andb_true_iff, linked_chain.
  rewrite forallb_forall, Forall_forall.
  split; intros [H1 H2]; (split; [exact H1|]); intros t Ht;
    apply H2, list_elem_of_In, Ht.
Qed.

(** ** Selecting a line *)

(** A step of the walk from a node that has a successor follows [next]. *)
Lemma select_step_follow b addrs k a q :
  chain_of b addrs -> addrs !! k = Some a -> current b = Some a ->
  addrs !! S k = Some q ->
  select_step b = Returned (Buf (heap b) (head b) (Some q)).
Proof.
  intros [_ Hseg] Hk Hcur Hq.
  destruct (list_seg_lookup _ _ _ _ _ Hseg Hk) as (n & Hn & Hnext).
  unfold select_step. rewrite Hcur. cbn [deref]. rewrite Hn. cbn [bind].
  rewrite Hnext, Hq. rewrite Hn. cbn [bind]. rewrite Hnext, Hq. reflexivity.
Qed.

(** A step of the walk from the last node links a zeroed node after it. *)
Lemma select_step_extend b addrs k a :
  chain_of b addrs -> addrs !! k = Some a -> current b = Some a ->
  addrs !! S k = None ->
  exists h1,
    select_step b = Returned (Buf h1 (head b) (Some (length (heap b))))
    /\ chain_of (Buf h1 (head b) (Some (length (heap b))))
         (addrs ++ [length (heap b)])
    /\ map (text_at h1) (addrs ++ [length (heap b)])
       = map (text_at (heap b)) addrs ++ [empty_text]
    /\ length h1 = S (length (heap b)).
Proof.
  intros [Hnd Hseg] Hk Hcur Hlast.
  destruct (list_seg_lookup _ _ _ _ _ Hseg Hk) as (n & Hn & Hnext).
  rewrite Hlast in Hnext.
  set (p := length (heap b)).
  set (h1 := <[a := Node (text n) (Some p)]> (heap b ++ [Node empty_text None])).
  assert (a < p)%nat as Hap by (apply lookup_lt_Some in Hn; exact Hn).
  assert (h1 !! a = Some (Node (text n) (Some p))) as Ha1.
  { unfold h1. apply list_lookup_insert_eq. rewrite length_app. cbn. lia. }
  assert (h1 !! p = Some (Node empty_text None)) as Hp1.
  { unfold h1. rewrite list_lookup_insert_ne by lia.
    apply list_lookup_middle. reflexivity. }
  assert (forall c, c <> a -> (c < p)%nat -> h1 !! c = heap b !! c) as Hother.
  { intros c Hca Hcp. unfold h1. rewrite list_lookup_insert_ne by auto.
    apply lookup_app_l. exact Hcp. }
  assert (forall c, c ∈ addrs -> (c < p)%nat) as Hin.
  { intros c [j Hj]%list_elem_of_lookup.
    destruct (list_seg_lookup _ _ _ _ _ Hseg Hj) as (m & Hm & _).
    apply lookup_lt_Some in Hm. exact Hm. }
  assert (length addrs = S k) as Hlen.
  { apply lookup_lt_Some in Hk. apply lookup_ge_None in Hlast. lia. }
  exists h1. split; [|split; [|split]]; cycle 3.
  { unfold h1. rewrite length_insert, length_app. cbn [length]. lia. }
  - unfold select_step. rewrite Hcur. cbn [deref]. rewrite Hn. cbn [bind].
    rewrite Hnext. cbn [calloc_node]. fold p. fold h1. rewrite Ha1. reflexivity.
  - split.
    + apply NoDup_app. split; [assumption|]. split; [|apply NoDup_singleton].
      intros c Hc ->%list_elem_of_singleton. apply Hin in Hc. lia.
    + cbn [heap head]. apply list_seg_pointwise.
      * rewrite (list_seg_head _ _ _ Hseg).
        rewrite lookup_app_l by lia. reflexivity.
      * intros j c Hj.
        destruct (decide (j < k)%nat) as [Hjk|Hjk].
        -- rewrite lookup_app_l in Hj by lia.
           destruct (list_seg_lookup _ _ _ _ _ Hseg Hj) as (m & Hm & Hmn).
           exists m. split.
           ++ rewrite Hother; [assumption| |apply Hin, list_elem_of_lookup; eauto].
              intros ->. apply (NoDup_lookup _ _ _ _ Hnd Hj) in Hk. lia.
           ++ rewrite lookup_app_l by lia. exact Hmn.
        -- destruct (decide (j = k)) as [->|Hne].
           ++ rewrite lookup_app_l in Hj by lia.
              assert (c = a) as -> by congruence.
              eexists. split; [exact Ha1|]. cbn [next].
              rewrite lookup_app_r by lia. rewrite Hlen, Nat.sub_diag. reflexivity.
           ++ rewrite lookup_app_r in Hj by lia.
              destruct (j - length addrs)%nat as [|d] eqn:Hd; [|discriminate].
              injection Hj as <-. eexists. split; [exact Hp1|]. cbn [next].
              symmetry. apply lookup_ge_None. rewrite length_app. cbn. lia.
  - rewrite map_app. cbn [map]. f_equal.
    + apply map_ext_in. intros c Hc%list_elem_of_In. unfold text_at.
      destruct (decide (c = a)) as [->|Hca].
      * rewrite Ha1, Hn. reflexivity.
      * rewrite Hother; [reflexivity|assumption|apply Hin, Hc].
    + unfold text_at. rewrite Hp1. reflexivity.
Qed.

(** The walk from row [k] for [n] steps ends on row [k + n]; the rows it
    had to create are empty and come after the rows that existed. *)
Lemma select_walk_rows n : forall b addrs k a,
  chain_of b addrs -> addrs !! k = Some a -> current b = Some a ->
  exists b' addrs' a',
    select_walk n b = Returned b'
    /\ chain_of b' addrs'
    /\ addrs' !! (k + n)%nat = Some a' /\ current b' = Some a'
    /\ map (text_at (heap b')) addrs'
       = map (text_at (heap b)) addrs
         ++ replicate (S (k + n) - length addrs) empty_text
    /\ length (heap b') = (length (heap b) + (S (k + n) - length addrs))%nat.
Proof.
  induction n as [|n IH]; intros b addrs k a Hch Hk Hcur.
  - exists b, addrs, a. rewrite Nat.add_0_r.
    apply lookup_lt_Some in Hk as Hlt.
    replace (S k - length addrs)%nat with 0%nat by lia.
    cbn [replicate]. rewrite app_nil_r, Nat.add_0_r. auto 7.
  - cbn [select_walk].
    destruct (addrs !! S k) as [q|] eqn:Hq.
    + rewrite (select_step_follow _ _ _ _ _ Hch Hk Hcur Hq). cbn [bind].
      destruct (IH (Buf (heap b) (head b) (Some q)) addrs (S k) q)
        as (b' & addrs' & a' & Hw & Hch' & Ha' & Hcur' & Htexts & Hheap);
        [exact Hch|exact Hq|reflexivity|].
      exists b', addrs', a'.
      replace (k + S n)%nat with (S k + n)%nat by lia. auto 7.
    + destruct (select_step_extend _ _ _ _ Hch Hk Hcur Hq)
        as (h1 & Hstep & Hch1 & Htexts1 & Hheap1).
      rewrite Hstep. cbn [bind].
      assert (length addrs = S k) as Hlen.
      { apply lookup_lt_Some in Hk. apply lookup_ge_None in Hq. lia. }
      destruct (IH _ (addrs ++ [length (heap b)]) (S k) (length (heap b)) Hch1)
        as (b' & addrs' & a' & Hw & Hch' & Ha' & Hcur' & Htexts & Hheap);
        [rewrite lookup_app_r by lia; rewrite Hlen, Nat.sub_diag; reflexivity
        |reflexivity|].
      exists b', addrs', a'.
      replace (k + S n)%nat with (S k + n)%nat by lia.
      do 4 (split; [assumption|]).
      cbn [heap] in Hheap. rewrite length_app in Hheap. cbn [length] in Hheap.
      split; [|lia].
      rewrite Htexts. cbn [heap]. rewrite Htexts1, <- app_assoc. f_equal.
      rewrite length_app, Hlen. cbn [length app].
      replace (S (S k + n) - (S k + 1))%nat with n by lia.
      replace (S (S k + n) - S k)%nat with (S n) by lia.
      reflexivity.
Qed.

(** [buffer_select_node] returns with [current] on row [y] (row 0 for a
    negative [y]); the rows that existed keep their place and their text,
    the rows up to [y] that did not exist are created empty. *)
Lemma buffer_select_node_rows b addrs y :
  chain_of b addrs ->
  exists b' addrs' a,
    buffer_select_node b y = Returned b'
    /\ chain_of b' addrs'
    /\ addrs' !! row_of y = Some a /\ current b' = Some a
    /\ lines b' = extended b (row_of y)
    /\ length (heap b')
       = (length (heap b) + (S (row_of y) - length (lines b)))%nat.
Proof.
  intros Hch. pose proof Hch as [Hnd Hseg]. unfold extended.
  rewrite (lines_chain _ _ Hch), length_map.
  unfold buffer_select_node.
  destruct (head b) as [a0|] eqn:Hhead.
  - pose proof (list_seg_head _ _ _ Hseg) as H0. symmetry in H0.
    destruct (select_walk_rows (Z.to_nat y) (Buf (heap b) (head b) (head b))
                addrs 0%nat a0)
      as (b' & addrs' & a' & Hw & Hch' & Ha' & Hcur' & Htexts & Hheap);
      [exact Hch|exact H0|exact Hhead|].
    exists b', addrs', a'. rewrite (lines_chain _ _ Hch'). auto 7.
  - assert (addrs = []) as ->.
    { destruct addrs as [|a1 addrs]; [reflexivity|].
      destruct Hseg as [Hp _]. discriminate. }
    cbn [calloc_node]. set (p := length (heap b)).
    destruct (select_walk_rows (Z.to_nat y)
                (Buf (heap b ++ [Node empty_text None]) (Some p) (Some p))
                [p] 0%nat p)
      as (b' & addrs' & a' & Hw & Hch' & Ha' & Hcur' & Htexts & Hheap);
      [|reflexivity|reflexivity|].
    { split; [apply NoDup_singleton|]. cbn. split; [reflexivity|].
      eexists. split; [apply list_lookup_middle; reflexivity|reflexivity]. }
    exists b', addrs', a'. rewrite (lines_chain _ _ Hch').
    do 4 (split; [assumption|]).
    split; cycle 1.
    { rewrite Hheap. cbn [heap length map]. rewrite length_app. cbn [length].
      unfold row_of. lia. }
    rewrite Htexts. cbn [heap map length app]. unfold text_at.
    rewrite list_lookup_middle by reflexivity. cbn [text].
    cbn [Nat.add]. replace (S (Z.to_nat y) - 1)%nat with (Z.to_nat y) by lia.
    unfold row_of. rewrite Nat.sub_0_r. reflexivity.
Qed.

(** ** Editing the selected line *)

Lemma on_current_text_row f b addrs r a t' :
  chain_of b addrs -> addrs !! r = Some a -> current b = Some a ->
  f (text_at (heap b) a) = Returned t' ->
  exists b',
    on_current_text f b = Returned b'
    /\ chain_of b' addrs
    /\ lines b' = <[r := t']> (lines b).
Proof.
  intros Hch Hr Hcur Hf. pose proof Hch as [Hnd Hseg].
  destruct (list_seg_lookup _ _ _ _ _ Hseg Hr) as (n & Hn & Hnext).
  unfold text_at in Hf. rewrite Hn in Hf.
  set (h' := <[a := Node t' (next n)]> (heap b)).
  assert (chain_of (Buf h' (head b) (current b)) addrs) as Hch'.
  { split; [assumption|]. cbn [heap head]. apply list_seg_pointwise.
    - apply (list_seg_head _ _ _ Hseg).
    - intros j c Hj.
      destruct (list_seg_lookup _ _ _ _ _ Hseg Hj) as (m & Hm & Hmn).
      destruct (decide (c = a)) as [->|Hca].
      + exists (Node t' (next n)). split.
        * apply list_lookup_insert_eq. apply lookup_lt_Some in Hn. exact Hn.
        * cbn [next]. congruence.
      + exists m. split; [|assumption].
        unfold h'. rewrite list_lookup_insert_ne by auto. exact Hm. }
  exists (Buf h' (head b) (current b)). split; [|split].
  - unfold on_current_text. rewrite Hcur. cbn [deref]. rewrite Hn. cbn [bind].
    rewrite Hf. cbn [bind]. rewrite <- Hcur. reflexivity.
  - exact Hch'.
  - rewrite (lines_chain _ _ Hch'), (lines_chain _ _ Hch). cbn [heap].
    apply list_eq. intros j.
    rewrite list_lookup_fmap.
    destruct (decide (j = r)) as [->|Hjr].
    + rewrite Hr. cbn. rewrite list_lookup_insert_eq
        by (rewrite length_map; apply lookup_lt_Some in Hr; exact Hr).
      unfold text_at, h'. rewrite list_lookup_insert_eq
        by (apply lookup_lt_Some in Hn; exact Hn).
      reflexivity.
    + rewrite list_lookup_insert_ne by auto. rewrite list_lookup_fmap.
      destruct (addrs !! j) as [c|] eqn:Hj; [|reflexivity]. cbn. f_equal.
      unfold text_at, h'. rewrite list_lookup_insert_ne; [reflexivity|].
      intros <-. apply Hjr. eapply NoDup_lookup; eassumption.
Qed.

Lemma line_ok_empty_text : line_ok empty_text = true.
Proof. vm_compute. reflexivity. Qed.

Lemma extended_length b r : (r < length (extended b r))%nat.
Proof. unfold extended. rewrite length_app, length_replicate. lia. Qed.

(** Row [r] of the extended lines is the padding of the content of row [r]. *)
Lemma extended_row b r :
  Forall (fun t => line_ok t = true) (lines b) ->
  extended b r !! r = Some (padded (row_content b r))
  /\ printable (row_content b r)
  /\ (length (row_content b r) < Z.to_nat MAX_LINE_LEN)%nat.
Proof.
  intros Hok. unfold extended, row_content.
  destruct (lines b !! r) as [t|] eqn:Ht.
  - rewrite (lookup_app_l_Some _ _ _ _ Ht).
    destruct (line_ok_padded t) as [Hpad Hlen].
    { rewrite Forall_forall in Hok. apply Hok, list_elem_of_lookup. eauto. }
    rewrite <- Hpad. split; [reflexivity|]. split; [apply content_printable|exact Hlen].
  - apply lookup_ge_None in Ht.
    rewrite lookup_app_r by exact Ht.
    rewrite lookup_replicate_2 by lia.
    split; [reflexivity|]. split; [constructor|]. pos_arith.
Qed.

(** The content of the rows after an update of row [r]. *)
Lemma updated_row_content (ls : list (list ascii)) r t' :
  (r < length ls)%nat ->
  match <[r := t']> ls !! r with Some t => content t | None => [] end
  = content t'.
Proof. intros Hr. rewrite list_lookup_insert_eq by exact Hr. reflexivity. Qed.

Lemma extended_other_row b r r' t' :
  r' <> r ->
  match <[r := t']> (extended b r) !! r' with Some t => content t | None => [] end
  = row_content b r'.
Proof.
  intros Hne. rewrite list_lookup_insert_ne by auto.
  unfold extended, row_content.
  destruct (lines b !! r') as [t|] eqn:Ht.
  - rewrite (lookup_app_l_Some _ _ _ _ Ht). reflexivity.
  - apply lookup_ge_None in Ht. rewrite lookup_app_r by exact Ht.
    destruct (replicate _ _ !! _) as [t|] eqn:Hr; [|reflexivity].
    apply lookup_replicate in Hr as [-> _]. reflexivity.
Qed.

(** [buffer_select_node] on a well-formed store: it returns, with
    [current] on the line of row [y]. *)
Lemma select_target b y :
  well_formed b = true ->
  exists b1 addrs a,
    buffer_select_node b y = Returned b1
    /\ chain_of b1 addrs
    /\ addrs !! row_of y = Some a /\ current b1 = Some a
    /\ lines b1 = extended b (row_of y)
    /\ text_at (heap b1) a = padded (row_content b (row_of y)).
Proof.
  intros [[addrs0 Hch0] Hok]%well_formed_chain.
  destruct (buffer_select_node_rows b addrs0 y Hch0)
    as (b1 & addrs & a & Hsel & Hch & Ha & Hcur & Hlines & _).
  exists b1, addrs, a. do 5 (split; [assumption|]).
  destruct (extended_row b (row_of y) Hok) as [Hrow _].
  rewrite <- Hlines, (lines_chain _ _ Hch), list_lookup_fmap, Ha in Hrow.
  cbn in Hrow. congruence.
Qed.

(** An edit of row [y] of a well-formed store, when the edit of the text
    returns. *)
Lemma edit_row f b y t' :
  well_formed b = true ->
  f (padded (row_content b (row_of y))) = Returned t' ->
  exists b',
    (do b1 <- buffer_select_node b y; on_current_text f b1) = Returned b'
    /\ lines b' = <[row_of y := t']> (extended b (row_of y))
    /\ (line_ok t' = true -> well_formed b' = true).
Proof.
  intros Hwf Hf.
  destruct (select_target b y Hwf)
    as (b1 & addrs & a & Hsel & Hch & Ha & Hcur & Hlines & Htext).
  rewrite Hsel. cbn [bind].
  destruct (on_current_text_row f b1 addrs (row_of y) a t' Hch Ha Hcur)
    as (b' & Hedit & Hch' & Hlines'); [rewrite Htext; exact Hf|].
  exists b'. split; [exact Hedit|]. rewrite Hlines', Hlines.
  split; [reflexivity|].
  intros Hok'. apply well_formed_chain. split; [eauto|].
  rewrite Hlines', Hlines. apply Forall_insert; [|exact Hok'].
  apply well_formed_chain in Hwf as [_ Hok].
  unfold extended. apply Forall_app. split; [exact Hok|].
  apply Forall_replicate, line_ok_empty_text.
Qed.

(** The same when the edit of the text is undefined. *)
Lemma edit_row_undefined f b y :
  well_formed b = true ->
  f (padded (row_content b (row_of y))) = Undefined ->
  (do b1 <- buffer_select_node b y; on_current_text f b1) = Undefined.
Proof.
  intros Hwf Hf.
  destruct (select_target b y Hwf)
    as (b1 & addrs & a & Hsel & [_ Hseg] & Ha & Hcur & Hlines & Htext).
  rewrite Hsel. cbn [bind]. unfold on_current_text. rewrite Hcur.
  destruct (list_seg_lookup _ _ _ _ _ Hseg Ha) as (n & Hn & _).
  cbn [deref]. rewrite Hn. cbn [bind].
  unfold text_at in Htext. rewrite Hn in Htext. rewrite Htext, Hf. reflexivity.
Qed.

(** The content of the rows after an edit of row [y]. *)
Lemma edited_row_content b b' y t' :
  lines b' = <[row_of y := t']> (extended b (row_of y)) ->
  row_content b' (row_of y) = content t'
  /\ forall r, r <> row_of y -> row_content b' r = row_content b r.
Proof.
  intros Hlines. split.
  - unfold row_content. rewrite Hlines.
    apply updated_row_content, extended_length.
  - intros r Hr. unfold row_content at 1. rewrite Hlines.
    apply extended_other_row, Hr.
Qed.

(** ** The edit operations on a well-formed store *)

Lemma insert_in_text_splices s ch x :
  printable s -> 0 <= x <= Z.of_nat (length s) ->
  Z.of_nat (length s) + 1 < MAX_LINE_LEN ->
  insert_in_text ch x (padded s)
  = Returned (padded (take (Z.to_nat x) s ++ to_char ch :: drop (Z.to_nat x) s)).
Proof.
  intros Hs Hx Hl.
  destruct (Z_lt_le_dec x (Z.of_nat (length s))) as [Hlt|Hge].
  - apply insert_in_text_inside; [assumption|lia|assumption].
  - rewrite insert_in_text_end by (assumption || lia).
    rewrite take_ge, drop_ge by lia.
    replace (Z.to_nat x - length s)%nat with 0%nat by lia. reflexivity.
Qed.

Lemma insert_in_text_overrun (t : list ascii) ch x :
  length t = Z.to_nat MAX_LINE_LEN -> MAX_LINE_LEN <= x ->
  insert_in_text ch x t = Undefined.
Proof.
  intros Hlen Hx. unfold insert_in_text.
  destruct (Z.eq_dec x MAX_LINE_LEN) as [->|Hne].
  - (* the first loop stays inside, the test of [text[x]] does not *)
    rewrite <- Hlen.
    pose proof (gap_fill_fills t [] [] 0 eq_refl) as Hfill.
    cbn [app length Nat.add] in Hfill. rewrite app_nil_r in Hfill.
    rewrite Hfill by pos_arith. cbn [bind].
    rewrite text_read_outside by lia. reflexivity.
  - rewrite gap_fill_overrun; [reflexivity|assumption|pos_arith|lia].
Qed.

Lemma insert_in_text_negative (t : list ascii) ch x :
  x < 0 -> insert_in_text ch x t = Undefined.
Proof.
  intros Hx. unfold insert_in_text.
  replace (Z.to_nat x) with 0%nat by lia. cbn [gap_fill bind].
  rewrite text_read_outside by lia. reflexivity.
Qed.

Lemma printable_splice s c k :
  printable s -> c <> NUL -> printable (take k s ++ c :: drop k s).
Proof.
  intros Hs Hc. apply Forall_app. split; [apply Forall_take, Hs|].
  constructor; [|apply Forall_drop, Hs].
  destruct (is_nul c) eqn:E; [|reflexivity]. apply is_nul_true in E. contradiction.
Qed.

(** Inserting at a column of the content. *)
Lemma insert_splices b ch x y :
  well_formed b = true ->
  0 <= x <= Z.of_nat (length (row_content b (row_of y))) ->
  Z.of_nat (length (row_content b (row_of y))) + 1 < MAX_LINE_LEN ->
  to_char ch <> NUL ->
  exists b',
    buffer_insert_character b ch x y = Returned b'
    /\ well_formed b' = true
    /\ row_content b' (row_of y)
       = take (Z.to_nat x) (row_content b (row_of y))
         ++ to_char ch :: drop (Z.to_nat x) (row_content b (row_of y))
    /\ forall r, r <> row_of y -> row_content b' r = row_content b r.
Proof.
  intros Hwf Hx Hl Hch.
  pose proof Hwf as [_ Hok]%well_formed_chain.
  destruct (extended_row b (row_of y) Hok) as (_ & Hs & Hlen).
  set (s := row_content b (row_of y)) in *.
  set (s' := take (Z.to_nat x) s ++ to_char ch :: drop (Z.to_nat x) s).
  assert (printable s') as Hs' by (apply printable_splice; assumption).
  assert (length s' = S (length s)) as Hlen'.
  { unfold s'. rewrite length_app. cbn [length].
    rewrite length_take_le, length_drop by lia. lia. }
  destruct (edit_row (insert_in_text ch x) b y (padded s') Hwf)
    as (b' & Hedit & Hlines & Hwf');
    [apply insert_in_text_splices; assumption|].
  exists b'. split; [exact Hedit|].
  split; [apply Hwf', padded_line_ok; [assumption|pos_arith]|].
  destruct (edited_row_content _ _ _ _ Hlines) as [Hrow Hothers].
  split; [|exact Hothers].
  rewrite Hrow. apply content_padded; [assumption|pos_arith].
Qed.

(** Inserting at or past the end of the content, inside the array. *)
Lemma insert_past_end b ch x y :
  well_formed b = true ->
  Z.of_nat (length (row_content b (row_of y))) <= x < MAX_LINE_LEN ->
  to_char ch <> NUL ->
  exists b',
    buffer_insert_character b ch x y = Returned b'
    /\ row_content b' (row_of y)
       = row_content b (row_of y)
         ++ replicate (Z.to_nat x - length (row_content b (row_of y))) SPACE
         ++ [to_char ch]
    /\ (forall r, r <> row_of y -> row_content b' r = row_content b r)
    /\ (x < MAX_LINE_LEN - 1 -> well_formed b' = true).
Proof.
  intros Hwf Hx Hch.
  pose proof Hwf as [_ Hok]%well_formed_chain.
  destruct (extended_row b (row_of y) Hok) as (_ & Hs & Hlen).
  set (s := row_content b (row_of y)) in *.
  set (s' := s ++ replicate (Z.to_nat x - length s) SPACE ++ [to_char ch]).
  assert (printable s') as Hs'.
  { apply Forall_app. split; [assumption|]. apply Forall_app.
    split; [apply printable_spaces|]. repeat constructor.
    destruct (is_nul (to_char ch)) eqn:E; [|reflexivity].
    apply is_nul_true in E. contradiction. }
  assert (length s' = S (Z.to_nat x)) as Hlen'.
  { unfold s'. rewrite !length_app, length_replicate. cbn [length]. lia. }
  destruct (edit_row (insert_in_text ch x) b y (padded s') Hwf)
    as (b' & Hedit & Hlines & Hwf');
    [apply insert_in_text_end; assumption|].
  exists b'. split; [exact Hedit|].
  destruct (edited_row_content _ _ _ _ Hlines) as [Hrow Hothers].
  split; [|split; [exact Hothers|]].
  - rewrite Hrow.
    destruct (decide (length s' < Z.to_nat MAX_LINE_LEN)%nat) as [Hin|Hfull].
    + apply content_padded; assumption.
    + unfold padded.
      replace (Z.to_nat MAX_LINE_LEN - length s')%nat with 0%nat by lia.
      cbn [replicate]. rewrite app_nil_r. apply content_all, Hs'.
  - intros Hx'. apply Hwf', padded_line_ok; [assumption|pos_arith].
Qed.

(** Inserting past the array is undefined behaviour. *)
Lemma insert_beyond_array b ch x y :
  well_formed b = true -> MAX_LINE_LEN <= x ->
  buffer_insert_character b ch x y = Undefined.
Proof.
  intros Hwf Hx.
  pose proof Hwf as [_ Hok]%well_formed_chain.
  destruct (extended_row b (row_of y) Hok) as (_ & Hs & Hlen).
  apply edit_row_undefined; [exact Hwf|].
  apply insert_in_text_overrun; [|exact Hx]. apply length_padded. lia.
Qed.

(** Deleting before a column of the content. *)
Lemma remove_closes b x y :
  well_formed b = true ->
  1 <= x <= Z.of_nat (length (row_content b (row_of y))) ->
  exists b',
    buffer_remove_character b x y = Returned b'
    /\ well_formed b' = true
    /\ row_content b' (row_of y)
       = take (Z.to_nat (x - 1)) (row_content b (row_of y))
         ++ drop (Z.to_nat x) (row_content b (row_of y))
    /\ forall r, r <> row_of y -> row_content b' r = row_content b r.
Proof.
  intros Hwf Hx.
  pose proof Hwf as [_ Hok]%well_formed_chain.
  destruct (extended_row b (row_of y) Hok) as (_ & Hs & Hlen).
  set (s := row_content b (row_of y)) in *.
  set (s' := take (Z.to_nat (x - 1)) s ++ drop (Z.to_nat x) s).
  assert (printable s') as Hs'
    by (apply Forall_app; split; [apply Forall_take|apply Forall_drop]; exact Hs).
  assert (length s' < length s)%nat as Hlen'.
  { unfold s'. rewrite length_app, length_take_le, length_drop by lia. lia. }
  destruct (edit_row (remove_in_text x) b y (padded s') Hwf)
    as (b' & Hedit & Hlines & Hwf');
    [apply remove_in_text_closes; assumption|].
  exists b'. split; [exact Hedit|].
  split; [apply Hwf', padded_line_ok; [assumption|lia]|].
  destruct (edited_row_content _ _ _ _ Hlines) as [Hrow Hothers].
  split; [|exact Hothers].
  rewrite Hrow. apply content_padded; [assumption|lia].
Qed.

(** Deleting where the loop makes no iteration: at a column past the
    content, and at a column that is not positive. *)
Lemma remove_skips b x y :
  well_formed b = true ->
  INT_MIN < x <= INT_MAX ->
  x <= 0 \/ Z.of_nat (length (row_content b (row_of y))) < x ->
  exists b',
    buffer_remove_character b x y = Returned b'
    /\ well_formed b' = true
    /\ lines b' = extended b (row_of y)
    /\ forall r, row_content b' r = row_content b r.
Proof.
  intros Hwf Hx Hcase.
  pose proof Hwf as [_ Hok]%well_formed_chain.
  destruct (extended_row b (row_of y) Hok) as (Hrow & Hs & Hlen).
  set (s := row_content b (row_of y)) in *.
  destruct (edit_row (remove_in_text x) b y (padded s) Hwf)
    as (b' & Hedit & Hlines & Hwf');
    [apply remove_in_text_skips; assumption|].
  exists b'. split; [exact Hedit|].
  split; [apply Hwf', padded_line_ok; assumption|].
  destruct (edited_row_content _ _ _ _ Hlines) as [Hrow' Hothers].
  split; [rewrite Hlines; apply list_insert_id, Hrow|].
  intros r. destruct (decide (r = row_of y)) as [->|Hr]; [|apply Hothers, Hr].
  rewrite Hrow'. apply content_padded; assumption.
Qed.

(** A walk over rows that all exist follows [next] and allocates nothing. *)
Lemma select_walk_follows n : forall b addrs k a a',
  chain_of b addrs -> addrs !! k = Some a -> current b = Some a ->
  addrs !! (k + n)%nat = Some a' ->
  select_walk n b = Returned (Buf (heap b) (head b) (Some a')).
Proof.
  induction n as [|n IH]; intros b addrs k a a' Hch Hk Hcur Hend.
  - rewrite Nat.add_0_r in Hend. assert (a' = a) as -> by congruence.
    destruct b as [h hd cur]. cbn in *. subst cur. reflexivity.
  - destruct (lookup_lt_is_Some_2 addrs (S k)) as [q Hq];
      [apply lookup_lt_Some in Hend; lia|].
    cbn [select_walk].
    rewrite (select_step_follow _ _ _ _ _ Hch Hk Hcur Hq). cbn [bind].
    apply (IH (Buf (heap b) (head b) (Some q)) addrs (S k) q);
      [exact Hch|exact Hq|reflexivity|].
    replace (S k + n)%nat with (k + S n)%nat by lia. exact Hend.
Qed.

(** Deleting before a column of the content and inserting the removed
    character at the column before gives the content back. *)
Lemma remove_then_insert_restores b x y c :
  well_formed b = true ->
  1 <= x ->
  row_content b (row_of y) !! Z.to_nat (x - 1) = Some c ->
  exists b1 b2,
    buffer_remove_character b x y = Returned b1
    /\ buffer_insert_character b1 (of_char c) (x - 1) y = Returned b2
    /\ row_content b2 (row_of y) = row_content b (row_of y)
    /\ (forall r, row_content b2 r = row_content b r)
    /\ well_formed b2 = true.
Proof.
  intros Hwf Hx Hc.
  pose proof Hwf as [_ Hok]%well_formed_chain.
  destruct (extended_row b (row_of y) Hok) as (_ & Hs & Hlen).
  set (s := row_content b (row_of y)) in *.
  apply lookup_lt_Some in Hc as Hlt.
  destruct (remove_closes b x y Hwf) as (b1 & Hdel & Hwf1 & Hrow1 & Hothers1);
    [fold s; lia|].
  fold s in Hrow1.
  set (k := Z.to_nat (x - 1)) in *.
  replace (Z.to_nat x) with (S k) in Hrow1 by lia.
  assert (length (take k s) = k) as Hk by (apply length_take_le; lia).
  assert (c <> NUL) as Hcn.
  { intros ->. unfold printable in Hs. rewrite Forall_forall in Hs.
    specialize (Hs NUL). rewrite is_nul_NUL in Hs.
    discriminate Hs. apply list_elem_of_lookup. eauto. }
  destruct (insert_splices b1 (of_char c) (x - 1) y Hwf1)
    as (b2 & Hins & Hwf2 & Hrow2 & Hothers2).
  { rewrite Hrow1, length_app, Hk, length_drop. lia. }
  { rewrite Hrow1, length_app, Hk, length_drop. pos_arith. }
  { rewrite to_char_of_char. exact Hcn. }
  assert (row_content b2 (row_of y) = s) as Hback.
  { rewrite Hrow2, Hrow1, to_char_of_char. fold k.
    rewrite take_app_length' by (symmetry; exact Hk).
    rewrite drop_app_length' by (symmetry; exact Hk).
    apply take_drop_middle, Hc. }
  exists b1, b2. split; [exact Hdel|]. split; [exact Hins|].
  split; [exact Hback|]. split; [|exact Hwf2].
  intros r. destruct (decide (r = row_of y)) as [->|Hr]; [exact Hback|].
  rewrite Hothers2, Hothers1 by exact Hr. reflexivity.
Qed.

(** ** The invariant *)

Lemma well_formed_empty : well_formed empty_buffer = true.
Proof. reflexivity. Qed.

Lemma select_keeps_well_formed b y :
  well_formed b = true ->
  exists b', buffer_select_node b y = Returned b' /\ well_formed b' = true.
Proof.
  intros Hwf.
  destruct (select_target b y Hwf)
    as (b1 & addrs & a & Hsel & Hch & _ & _ & Hlines & _).
  exists b1. split; [exact Hsel|].
  apply well_formed_chain. split; [eauto|]. rewrite Hlines.
  apply well_formed_chain in Hwf as [_ Hok].
  unfold extended. apply Forall_app. split; [exact Hok|].
  apply Forall_replicate, line_ok_empty_text.
Qed.

(** A delete at any column keeps the store well formed ([x - 1] must not
    overflow). *)
Lemma remove_keeps_well_formed b x y :
  well_formed b = true -> INT_MIN < x <= INT_MAX ->
  exists b', buffer_remove_character b x y = Returned b' /\ well_formed b' = true.
Proof.
  intros Hwf Hx.
  destruct (Z_le_gt_dec x 0) as [H0|H0];
    [|destruct (Z_le_gt_dec x (Z.of_nat (length (row_content b (row_of y)))))
        as [HL|HL]].
  - destruct (remove_skips b x y Hwf Hx) as (b' & Hdel & Hwf' & _); [auto|eauto].
  - destruct (remove_closes b x y Hwf) as (b' & Hdel & Hwf' & _); [lia|eauto].
  - destruct (remove_skips b x y Hwf Hx) as (b' & Hdel & Hwf' & _);
      [right; lia|eauto].
Qed.

(** An insert keeps the store well formed when the column is before the
    last slot and the line has room for one more character. *)
Lemma insert_keeps_well_formed b ch x y :
  well_formed b = true -> to_char ch <> NUL ->
  0 <= x < MAX_LINE_LEN - 1 ->
  Z.of_nat (length (row_content b (row_of y))) + 1 < MAX_LINE_LEN ->
  exists b', buffer_insert_character b ch x y = Returned b' /\ well_formed b' = true.
Proof.
  intros Hwf Hch Hx HL.
  destruct (Z_le_gt_dec x (Z.of_nat (length (row_content b (row_of y)))))
    as [Hin|Hout].
  - destruct (insert_splices b ch x y Hwf) as (b' & Hins & Hwf' & _);
      [lia|exact HL|exact Hch|eauto].
  - destruct (insert_past_end b ch x y Hwf) as (b' & Hins & _ & _ & Hwf');
      [lia|exact Hch|]. exists b'. split; [exact Hins|]. apply Hwf'. lia.
Qed.

Lemma text_write_outside t i c :
  i < 0 \/ MAX_LINE_LEN <= i -> text_write t i c = Undefined.
Proof.
  intros Hi. unfold text_write.
  destruct (Z.leb_spec 0 i), (Z.ltb_spec i MAX_LINE_LEN); cbn [andb];
    try reflexivity. lia.
Qed.

(** An insert inside the content of a full line (127 characters) moves the
    terminator out of the array. *)
Lemma insert_in_full_line_overruns b ch x y :
  well_formed b = true ->
  Z.of_nat (length (row_content b (row_of y))) = MAX_LINE_LEN - 1 ->
  0 <= x < MAX_LINE_LEN - 1 ->
  buffer_insert_character b ch x y = Undefined.
Proof.
  intros Hwf HL Hx.
  pose proof Hwf as [_ Hok]%well_formed_chain.
  destruct (extended_row b (row_of y) Hok) as (_ & Hs & Hlen).
  apply edit_row_undefined; [exact Hwf|].
  set (s := row_content b (row_of y)) in *.
  unfold insert_in_text.
  rewrite gap_fill_inside by (assumption || lia). cbn [bind].
  destruct (lookup_lt_is_Some_2 s (Z.to_nat x)) as [a Ha]; [pos_arith|].
  pose proof (take_drop_middle s (Z.to_nat x) a Ha) as Hsplit.
  assert (is_nul a = false) as Han.
  { unfold printable in Hs. rewrite Forall_forall in Hs.
    apply Hs, list_elem_of_lookup. eauto. }
  assert (text_read (padded s) x = Returned a) as ->.
  { unfold padded. rewrite <- Hsplit at 1. rewrite <- app_assoc. cbn [app].
    apply text_read_middle; [rewrite length_take_le; lia|lia]. }
  cbn [bind]. rewrite Han.
  rewrite strlen_padded by assumption. cbn [bind].
  replace (Z.to_nat (Z.of_nat (length s) - x + 1))
    with (S (Z.to_nat (Z.of_nat (length s) - x))) by lia.
  cbn [shift_right].
  rewrite padded_nul at 1 by assumption.
  rewrite text_read_middle by (reflexivity || pos_arith). cbn [bind].
  rewrite text_write_outside by lia. reflexivity.
Qed.

(** ** The key dispatch *)

Lemma isprint_not_nul ch : isprint ch = true -> to_char ch <> NUL.
Proof.
  unfold isprint. intros [Hlo Hhi]%andb_true_iff.
  apply Z.leb_le in Hlo. apply Z.leb_le in Hhi.
  intros Hnul. apply (f_equal N_of_ascii) in Hnul.
  unfold to_char in Hnul. rewrite N_ascii_embedding in Hnul.
  - cbn in Hnul. rewrite Z.mod_small in Hnul by lia. lia.
  - rewrite Z.mod_small by lia. lia.
Qed.

(** X11: on a well-formed store, with the cursor at a column [x >= 1]
    after a printable character [c] of its row, the delete key followed by
    the key of [c] returns with the cursor where it was and the content of
    every row what it was. *)
Lemma delete_then_retype e c :
  well_formed (buffer e) = true ->
  1 <= cursor_x e <= INT_MAX ->
  row_content (buffer e) (row_of (cursor_y e)) !! Z.to_nat (cursor_x e - 1) = Some c ->
  isprint (of_char c) = true ->
  exists e2,
    handle_keys e [KeyDelete; KeyOther (of_char c)] = Returned e2
    /\ cursor_x e2 = cursor_x e /\ cursor_y e2 = cursor_y e
    /\ forall r, row_content (buffer e2) r = row_content (buffer e) r.
Proof.
  intros Hwf Hx Hc Hprint.
  destruct (remove_then_insert_restores _ _ _ _ Hwf (proj1 Hx) Hc)
    as (b1 & b2 & Hdel & Hins & _ & Hrows & _).
  exists (Editor b2 (cursor_x e) (cursor_y e)).
  split; [|auto].
  assert (forall a d, INT_MIN <= a + d <= INT_MAX -> int_add a d = Returned (a + d))
    as Hadd.
  { intros a d Hr. unfold int_add.
    destruct (Z.leb_spec INT_MIN (a + d)), (Z.leb_spec (a + d) INT_MAX);
      cbn [andb]; try reflexivity; lia. }
  cbn [handle_keys handle_key]. rewrite Hdel. cbn [bind].
  rewrite Hadd by (unfold INT_MIN, INT_MAX in *; lia). cbn [bind].
  cbn [buffer cursor_x cursor_y]. rewrite Hprint.
  replace (cursor_x e + -1) with (cursor_x e - 1) by lia.
  rewrite Hins. cbn [bind].
  rewrite Hadd by (unfold INT_MIN, INT_MAX in *; lia). cbn [bind].
  replace (cursor_x e - 1 + 1) with (cursor_x e) by lia. reflexivity.
Qed.

(** ** The line store *)

(** C6: on a linked store [buffer_select_node b y] returns, and selecting
    the same row again returns the very same state: [current] is the same
    node, the heap is the same (the same lines with the same content), and
    no node has been allocated. *)
Theorem select_twice_same b y :
  linked b = true ->
  exists b1,
    buffer_select_node b y = Returned b1
    /\ buffer_select_node b1 y = Returned b1.
Proof.
  intros [addrs0 Hch0]%linked_chain.
  destruct (buffer_select_node_rows b addrs0 y Hch0)
    as (b1 & addrs & a & Hsel & Hch & Ha & Hcur & _).
  exists b1. split; [exact Hsel|].
  pose proof Hch as [_ Hseg].
  pose proof (list_seg_head _ _ _ Hseg) as Hhead.
  destruct (lookup_lt_is_Some_2 addrs 0%nat) as [a0 Ha0];
    [apply lookup_lt_Some in Ha; lia|].
  rewrite Ha0 in Hhead.
  unfold buffer_select_node. rewrite Hhead.
  rewrite (select_walk_follows (Z.to_nat y) (Buf (heap b1) (head b1) (head b1))
             addrs 0%nat a0 a); [|exact Hch|exact Ha0|exact Hhead|exact Ha].
  cbn [heap head]. destruct b1 as [h hd cur]. cbn in *. subst cur. reflexivity.
Qed.

Lemma select_twice_same_witness :
  linked two_lines = true
  /\ exists b1,
       buffer_select_node two_lines 3 = Returned b1
       /\ buffer_select_node b1 3 = Returned b1.
Proof.
  split; [reflexivity|]. apply (select_twice_same two_lines 3). reflexivity.
Defined.

(** C7: on a linked store of [C] lines, [buffer_select_node b y] with
    [y >= C] returns; the lines afterwards are the [C] lines that existed,
    unchanged and in place, followed by empty lines at the rows [C..y], so
    they are [y + 1] lines; exactly [y + 1 - C] nodes have been allocated
    and [current] is on row [y]. *)
Theorem select_creates_rows b y C :
  linked b = true -> length (lines b) = C -> Z.of_nat C <= y ->
  exists b',
    buffer_select_node b y = Returned b'
    /\ lines b' = lines b ++ replicate (Z.to_nat y + 1 - C) empty_text
    /\ content empty_text = []
    /\ length (lines b') = (Z.to_nat y + 1)%nat
    /\ length (heap b') = (length (heap b) + (Z.to_nat y + 1 - C))%nat
    /\ (exists a, current b' = Some a
                  /\ lines b' !! Z.to_nat y = Some (text_at (heap b') a)).
Proof.
  intros [addrs0 Hch0]%linked_chain HC Hy.
  destruct (buffer_select_node_rows b addrs0 y Hch0)
    as (b' & addrs & a & Hsel & Hch & Ha & Hcur & Hlines & Hheap).
  unfold extended, row_of in *. rewrite HC in *.
  replace (S (Z.to_nat y) - C)%nat with (Z.to_nat y + 1 - C)%nat in * by lia.
  exists b'. split; [exact Hsel|]. split; [exact Hlines|].
  split; [reflexivity|].
  split; [rewrite Hlines, length_app, length_replicate; lia|].
  split; [exact Hheap|].
  exists a. split; [exact Hcur|].
  rewrite (lines_chain _ _ Hch), list_lookup_fmap, Ha. reflexivity.
Qed.

Lemma select_creates_rows_witness :
  linked empty_buffer = true
  /\ length (lines empty_buffer) = 0%nat
  /\ 0 <= 3
  /\ exists b',
       buffer_select_node empty_buffer 3 = Returned b'
       /\ lines b' = lines empty_buffer ++ replicate (Z.to_nat 3 + 1 - 0) empty_text
       /\ content empty_text = []
       /\ length (lines b') = (Z.to_nat 3 + 1)%nat
       /\ length (heap b') = (length (heap empty_buffer) + (Z.to_nat 3 + 1 - 0))%nat
       /\ (exists a, current b' = Some a
                     /\ lines b' !! Z.to_nat 3 = Some (text_at (heap b') a)).
Proof.
  split; [reflexivity|]. split; [reflexivity|]. split; [lia|].
  apply (select_creates_rows empty_buffer 3 0); [reflexivity|reflexivity|lia].
Defined.

(** C9: for [y <= 0] the loop of [buffer_select_node] makes no iteration,
    as for [y = 0]: the call returns with [current] on the head line; the
    head line is allocated, zeroed, only when the store had none, and no
    other node is allocated or touched. *)
Theorem select_nonpositive_row b y :
  y <= 0 ->
  buffer_select_node b y = buffer_select_node b 0
  /\ buffer_select_node b y
     = Returned
         match head b with
         | None =>
             Buf (heap b ++ [Node empty_text None])
                 (Some (length (heap b))) (Some (length (heap b)))
         | Some a => Buf (heap b) (Some a) (Some a)
         end.
Proof.
  intros Hy. unfold buffer_select_node.
  replace (Z.to_nat y) with 0%nat by lia. cbn [Z.to_nat select_walk].
  split; [reflexivity|].
  destruct (head b) as [a|] eqn:Hhead; cbn [calloc_node heap head];
    rewrite ?Hhead; reflexivity.
Qed.

Lemma select_nonpositive_row_witness :
  -2 <= 0
  /\ buffer_select_node two_lines (-2) = buffer_select_node two_lines 0
  /\ buffer_select_node two_lines (-2)
     = Returned
         match head two_lines with
         | None =>
             Buf (heap two_lines ++ [Node empty_text None])
                 (Some (length (heap two_lines))) (Some (length (heap two_lines)))
         | Some a => Buf (heap two_lines) (Some a) (Some a)
         end.
Proof.
  split; [lia|]. apply (select_nonpositive_row two_lines (-2)). lia.
Defined.

(** ** The insert operation *)

(** C3: on a well-formed store, for a row whose content has length [L],
    a column [x] in [0, L] with [L + 1 <= MAX_LINE_LEN - 1] and a character
    that is not the terminator, [buffer_insert_character] returns; the
    content of the row then has the character at position [x] and length
    [L + 1], the characters before [x] are where they were, and every
    character that was at a position [p >= x] is at [p + 1]. *)
Theorem insert_shifts_content b ch x y L :
  well_formed b = true -> to_char ch <> NUL ->
  length (row_content b (row_of y)) = L ->
  0 <= x <= Z.of_nat L -> Z.of_nat L + 1 <= MAX_LINE_LEN - 1 ->
  exists b',
    buffer_insert_character b ch x y = Returned b'
    /\ row_content b' (row_of y) !! Z.to_nat x = Some (to_char ch)
    /\ length (row_content b' (row_of y)) = S L
    /\ (forall p, (p < Z.to_nat x)%nat ->
          row_content b' (row_of y) !! p = row_content b (row_of y) !! p)
    /\ (forall p, (Z.to_nat x <= p)%nat ->
          row_content b' (row_of y) !! S p = row_content b (row_of y) !! p).
Proof.
  intros Hwf Hch HL Hx Hcap. subst L.
  destruct (insert_splices b ch x y Hwf Hx) as (b' & Hins & _ & Hrow & _);
    [lia|exact Hch|].
  exists b'. split; [exact Hins|]. rewrite Hrow.
  set (s := row_content b (row_of y)) in *. set (k := Z.to_nat x).
  assert (length (take k s) = k) as Hk by (apply length_take_le; lia).
  split; [|split; [|split]].
  - apply list_lookup_middle. symmetry. exact Hk.
  - rewrite length_app. cbn [length]. rewrite Hk, length_drop. lia.
  - intros p Hp. rewrite lookup_app_l by lia. apply lookup_take_lt, Hp.
  - intros p Hp. rewrite lookup_app_r by lia. rewrite Hk.
    replace (S p - k)%nat with (S (p - k)) by lia.
    change ((to_char ch :: drop k s) !! S (p - k)) with (drop k s !! (p - k)%nat).
    rewrite lookup_drop. f_equal. lia.
Qed.

Lemma insert_shifts_content_witness :
  well_formed abc_buffer = true /\ to_char (of_char "X") <> NUL
  /\ length (row_content abc_buffer (row_of 0)) = 3%nat
  /\ 0 <= 1 <= Z.of_nat 3 /\ Z.of_nat 3 + 1 <= MAX_LINE_LEN - 1
  /\ exists b',
       buffer_insert_character abc_buffer (of_char "X") 1 0 = Returned b'
       /\ row_content b' (row_of 0) !! Z.to_nat 1 = Some (to_char (of_char "X"))
       /\ length (row_content b' (row_of 0)) = 4%nat
       /\ (forall p, (p < Z.to_nat 1)%nat ->
             row_content b' (row_of 0) !! p = row_content abc_buffer (row_of 0) !! p)
       /\ (forall p, (Z.to_nat 1 <= p)%nat ->
             row_content b' (row_of 0) !! S p
             = row_content abc_buffer (row_of 0) !! p).
Proof.
  split; [reflexivity|]. split; [discriminate|]. split; [reflexivity|].
  split; [lia|]. split; [unfold MAX_LINE_LEN; lia|].
  apply (insert_shifts_content abc_buffer (of_char "X") 1 0 3);
    [reflexivity|discriminate|reflexivity|lia|unfold MAX_LINE_LEN; lia].
Defined.

(** C8: in the empty store, [buffer_insert_character] of ['X'] at column 5
    of row 0 returns; row 0 then reads five spaces and ['X'], of length 6. *)
Theorem insert_fills_gap :
  exists b',
    buffer_insert_character empty_buffer (of_char "X") 5 0 = Returned b'
    /\ string_of_list_ascii (row_content b' 0) = "     X"%string
    /\ row_content b' 0 = replicate 5 SPACE ++ ["X"%char]
    /\ length (row_content b' 0) = 6%nat.
Proof.
  destruct (insert_past_end empty_buffer (of_char "X") 5 0)
    as (b' & Hins & Hrow & _);
    [reflexivity|change (0 <= 5 < 128); lia|discriminate|].
  exists b'. split; [exact Hins|].
  change (row_of 0) with 0%nat in Hrow. rewrite Hrow.
  repeat split; reflexivity.
Qed.

(** ** The delete operation *)

(** C4: on a well-formed store, for a row whose content has length [L] and
    a column [x] with [1 <= x <= L], [buffer_remove_character] returns; the
    content of the row then has length [L - 1], every character that was
    at a position [p >= x] is at [p - 1], and the characters before
    position [x - 1] are where they were: the character that was at
    [x - 1] is gone. *)
Theorem remove_shifts_content b x y L :
  well_formed b = true ->
  length (row_content b (row_of y)) = L ->
  1 <= x <= Z.of_nat L ->
  exists b',
    buffer_remove_character b x y = Returned b'
    /\ length (row_content b' (row_of y)) = (L - 1)%nat
    /\ (forall p, (Z.to_nat x <= p)%nat ->
          row_content b' (row_of y) !! (p - 1)%nat = row_content b (row_of y) !! p)
    /\ (forall p, (p < Z.to_nat x - 1)%nat ->
          row_content b' (row_of y) !! p = row_content b (row_of y) !! p).
Proof.
  intros Hwf HL Hx. subst L.
  destruct (remove_closes b x y Hwf Hx) as (b' & Hdel & _ & Hrow & _).
  exists b'. split; [exact Hdel|]. rewrite Hrow.
  set (s := row_content b (row_of y)) in *.
  replace (Z.to_nat (x - 1)) with (Z.to_nat x - 1)%nat by lia.
  set (k := Z.to_nat x) in *.
  assert (length (take (k - 1) s) = (k - 1)%nat) as Hk
    by (apply length_take_le; lia).
  split; [|split].
  - rewrite length_app, Hk, length_drop. lia.
  - intros p Hp. rewrite lookup_app_r by lia. rewrite Hk, lookup_drop.
    f_equal. lia.
  - intros p Hp. rewrite lookup_app_l by lia. apply lookup_take_lt, Hp.
Qed.

Lemma remove_shifts_content_witness :
  well_formed abc_buffer = true
  /\ length (row_content abc_buffer (row_of 0)) = 3%nat
  /\ 1 <= 2 <= Z.of_nat 3
  /\ exists b',
       buffer_remove_character abc_buffer 2 0 = Returned b'
       /\ length (row_content b' (row_of 0)) = (3 - 1)%nat
       /\ (forall p, (Z.to_nat 2 <= p)%nat ->
             row_content b' (row_of 0) !! (p - 1)%nat
             = row_content abc_buffer (row_of 0) !! p)
       /\ (forall p, (p < Z.to_nat 2 - 1)%nat ->
             row_content b' (row_of 0) !! p = row_content abc_buffer (row_of 0) !! p).
Proof.
  split; [reflexivity|]. split; [reflexivity|]. split; [lia|].
  apply (remove_shifts_content abc_buffer 2 0 3); [reflexivity|reflexivity|lia].
Defined.

(** C10: on a well-formed store, for a row whose content has length [L]
    and an [int] column [x] with [x - 1 >= L], [buffer_remove_character]
    returns and leaves the lines as [buffer_select_node] leaves them: the
    content of every row is what it was. *)
Theorem remove_past_content b x y L :
  well_formed b = true ->
  length (row_content b (row_of y)) = L ->
  Z.of_nat L <= x - 1 -> x <= INT_MAX ->
  exists b',
    buffer_remove_character b x y = Returned b'
    /\ row_content b' (row_of y) = row_content b (row_of y)
    /\ lines b' = extended b (row_of y)
    /\ forall r, row_content b' r = row_content b r.
Proof.
  intros Hwf HL Hx Hint. subst L.
  destruct (remove_skips b x y Hwf) as (b' & Hdel & _ & Hlines & Hrows);
    [unfold INT_MIN; lia|right; lia|].
  exists b'. auto.
Qed.

Lemma remove_past_content_witness :
  well_formed abc_buffer = true
  /\ length (row_content abc_buffer (row_of 0)) = 3%nat
  /\ Z.of_nat 3 <= 4 - 1 /\ 4 <= INT_MAX
  /\ exists b',
       buffer_remove_character abc_buffer 4 0 = Returned b'
       /\ row_content b' (row_of 0) = row_content abc_buffer (row_of 0)
       /\ lines b' = extended abc_buffer (row_of 0)
       /\ forall r, row_content b' r = row_content abc_buffer r.
Proof.
  split; [reflexivity|]. split; [reflexivity|]. split; [lia|].
  split; [unfold INT_MAX; lia|].
  apply (remove_past_content abc_buffer 4 0 3);
    [reflexivity|reflexivity|lia|unfold INT_MAX; lia].
Defined.

(** C2, as stated, does not hold: [buffer_remove_character] at column 0 of
    the line ["abc"] does not fail, it returns (and leaves the store as it
    was). *)
Lemma remove_at_column_zero_counterexample :
  buffer_remove_character abc_buffer 0 0 = Returned abc_buffer
  /\ ~ fails (buffer_remove_character abc_buffer 0 0).
Proof.
  assert (buffer_remove_character abc_buffer 0 0 = Returned abc_buffer) as H
    by (vm_compute; reflexivity).
  split; [exact H|]. rewrite H. intros [].
Qed.

(** C2, amended: on a well-formed store [buffer_remove_character] at
    column 0 returns normally, no error is reported, and the content of
    the row, as of every row, is what it was. *)
Theorem remove_at_column_zero b y :
  well_formed b = true ->
  exists b',
    buffer_remove_character b 0 y = Returned b'
    /\ row_content b' (row_of y) = row_content b (row_of y)
    /\ forall r, row_content b' r = row_content b r.
Proof.
  intros Hwf.
  destruct (remove_skips b 0 y Hwf) as (b' & Hdel & _ & _ & Hrows);
    [unfold INT_MIN, INT_MAX; lia|left; lia|].
  exists b'. auto.
Qed.

Lemma remove_at_column_zero_witness :
  well_formed two_lines = true
  /\ exists b',
       buffer_remove_character two_lines 0 1 = Returned b'
       /\ row_content b' (row_of 1) = row_content two_lines (row_of 1)
       /\ forall r, row_content b' r = row_content two_lines r.
Proof.
  split; [reflexivity|]. apply (remove_at_column_zero two_lines 1). reflexivity.
Defined.

(** C5, as stated, does not hold: deleting at column 2 of ["abc"] removes
    ['b'], and inserting ['b'] at the same column 2 gives ["acb"]. *)
Lemma remove_then_insert_same_column_counterexample :
  row_content abc_buffer 0 !! 1%nat = Some "b"%char
  /\ exists b1 b2,
       buffer_remove_character abc_buffer 2 0 = Returned b1
       /\ buffer_insert_character b1 (of_char "b") 2 0 = Returned b2
       /\ string_of_list_ascii (row_content b2 0) = "acb"%string
       /\ row_content b2 0 <> row_content abc_buffer 0.
Proof.
  split; [reflexivity|].
  exists (Buf [Node (padded (list_ascii_of_string "ac")) None] (Some 0%nat) (Some 0%nat)),
         (Buf [Node (padded (list_ascii_of_string "acb")) None] (Some 0%nat) (Some 0%nat)).
  split; [vm_compute; reflexivity|]. split; [vm_compute; reflexivity|].
  split; [reflexivity|]. vm_compute. discriminate.
Qed.

(** C5, amended: on a well-formed store, for a column [x >= 1] inside the
    content of the row, [buffer_remove_character] at [x] removes the
    character [c] at position [x - 1], and [buffer_insert_character] of
    [c] at column [x - 1] (where [main] leaves the cursor after a delete)
    restores the content of the row; the other rows are what they were. *)
Theorem remove_then_insert_before b x y c :
  well_formed b = true ->
  1 <= x ->
  row_content b (row_of y) !! Z.to_nat (x - 1) = Some c ->
  exists b1 b2,
    buffer_remove_character b x y = Returned b1
    /\ buffer_insert_character b1 (of_char c) (x - 1) y = Returned b2
    /\ row_content b2 (row_of y) = row_content b (row_of y)
    /\ forall r, row_content b2 r = row_content b r.
Proof.
  intros Hwf Hx Hc.
  destruct (remove_then_insert_restores b x y c Hwf Hx Hc)
    as (b1 & b2 & Hdel & Hins & Hrow & Hrows & _).
  exists b1, b2. auto.
Qed.

Lemma remove_then_insert_before_witness :
  well_formed abc_buffer = true /\ 1 <= 2
  /\ row_content abc_buffer (row_of 0) !! Z.to_nat (2 - 1) = Some "b"%char
  /\ exists b1 b2,
       buffer_remove_character abc_buffer 2 0 = Returned b1
       /\ buffer_insert_character b1 (of_char "b") (2 - 1) 0 = Returned b2
       /\ row_content b2 (row_of 0) = row_content abc_buffer (row_of 0)
       /\ forall r, row_content b2 r = row_content abc_buffer r.
Proof.
  split; [reflexivity|]. split; [lia|]. split; [reflexivity|].
  apply (remove_then_insert_before abc_buffer 2 0 "b"%char);
    [reflexivity|lia|reflexivity].
Defined.

(** C1 is not what the code does: there is no check of the column against
    the capacity.  On the empty store an insert at column 128 reads and
    writes outside [text]; an insert at column 127 of ["abc"] returns after
    filling the line up to its last slot, terminator included, so that the
    content has changed and the next [strlen] leaves the array. *)
Theorem insert_at_capacity_overruns :
  buffer_insert_character empty_buffer (of_char "X") 128 0 = Undefined
  /\ exists b',
       buffer_insert_character abc_buffer (of_char "X") 127 0 = Returned b'
       /\ row_content b' 0
          = list_ascii_of_string "abc" ++ replicate 124 SPACE ++ ["X"%char]
       /\ row_content b' 0 <> row_content abc_buffer 0
       /\ well_formed b' = false
       /\ buffer_remove_character b' 1 0 = Undefined.
Proof.
  split.
  - apply insert_beyond_array; [reflexivity|]. unfold MAX_LINE_LEN. lia.
  - exists (Buf [Node (list_ascii_of_string "abc" ++ replicate 124 SPACE ++ ["X"%char])
                   None] (Some 0%nat) (Some 0%nat)).
    split; [vm_compute; reflexivity|]. split; [vm_compute; reflexivity|].
    split; [vm_compute; discriminate|].
    split; vm_compute; reflexivity.
Qed.

(** * Further properties of the buffer functions and of the key dispatch *)

(** ** Edits of a linked store

    The facts below need the list structure only, not the shape of the
    lines, so that they also apply once a line has lost its terminator. *)

Lemma select_target_linked b addrs0 y :
  chain_of b addrs0 ->
  exists b1 addrs a t,
    buffer_select_node b y = Returned b1
    /\ chain_of b1 addrs
    /\ addrs !! row_of y = Some a /\ current b1 = Some a
    /\ lines b1 = extended b (row_of y)
    /\ extended b (row_of y) !! row_of y = Some t
    /\ text_at (heap b1) a = t
    /\ head b1 <> None.
Proof.
  intros Hch0.
  destruct (buffer_select_node_rows b addrs0 y Hch0)
    as (b1 & addrs & a & Hsel & Hch & Ha & Hcur & Hlines & _).
  exists b1, addrs, a, (text_at (heap b1) a).
  do 5 (split; [assumption|]).
  split; [|split; [reflexivity|]].
  - rewrite <- Hlines, (lines_chain _ _ Hch), list_lookup_fmap, Ha. reflexivity.
  - destruct Hch as [_ Hseg]. apply list_seg_head in Hseg.
    destruct (lookup_lt_is_Some_2 addrs 0%nat) as [a0 Ha0];
      [apply lookup_lt_Some in Ha; lia|].
    rewrite Hseg, Ha0. discriminate.
Qed.

(** An edit of row [y] runs the edit of the text on the text of that row
    and stores what it returns. *)
Lemma edit_linked f b addrs0 y t :
  chain_of b addrs0 ->
  extended b (row_of y) !! row_of y = Some t ->
  match f t with
  | Returned t' =>
      exists b' addrs,
        (do b1 <- buffer_select_node b y; on_current_text f b1) = Returned b'
        /\ chain_of b' addrs
        /\ lines b' = <[row_of y := t']> (extended b (row_of y))
  | Undefined =>
      (do b1 <- buffer_select_node b y; on_current_text f b1) = Undefined
  | OutOfFuel =>
      (do b1 <- buffer_select_node b y; on_current_text f b1) = OutOfFuel
  end.
Proof.
  intros Hch0 Ht.
  destruct (select_target_linked b addrs0 y Hch0)
    as (b1 & addrs & a & t0 & Hsel & Hch & Ha & Hcur & Hlines & Ht0 & Htext & _).
  assert (t0 = t) as -> by congruence.
  rewrite Hsel. cbn [bind].
  destruct (f t) as [t'| |] eqn:Hf.
  - destruct (on_current_text_row f b1 addrs (row_of y) a t' Hch Ha Hcur)
      as (b' & Hedit & Hch' & Hlines'); [rewrite Htext; exact Hf|].
    exists b', addrs. rewrite Hlines', Hlines. auto.
  - pose proof Hch as [_ Hseg].
    destruct (list_seg_lookup _ _ _ _ _ Hseg Ha) as (n & Hn & _).
    unfold on_current_text. rewrite Hcur. cbn [deref]. rewrite Hn. cbn [bind].
    unfold text_at in Htext. rewrite Hn in Htext. rewrite Htext, Hf. reflexivity.
  - pose proof Hch as [_ Hseg].
    destruct (list_seg_lookup _ _ _ _ _ Hseg Ha) as (n & Hn & _).
    unfold on_current_text. rewrite Hcur. cbn [deref]. rewrite Hn. cbn [bind].
    unfold text_at in Htext. rewrite Hn in Htext. rewrite Htext, Hf. reflexivity.
Qed.

Lemma extended_row_some b r : exists t, extended b r !! r = Some t.
Proof. apply lookup_lt_is_Some_2, extended_length. Qed.

(** An edit that returns leaves a linked store, with at least the lines
    that were there. *)
Lemma edit_keeps_linked f b y b' :
  linked b = true ->
  (do b1 <- buffer_select_node b y; on_current_text f b1) = Returned b' ->
  linked b' = true
  /\ length (lines b') = Nat.max (length (lines b)) (S (row_of y)).
Proof.
  intros [addrs0 Hch0]%linked_chain Hrun.
  destruct (extended_row_some b (row_of y)) as [t Ht].
  pose proof (edit_linked f b addrs0 y t Hch0 Ht) as Hedit.
  destruct (f t) as [t'| |].
  - destruct Hedit as (b'' & addrs & Hrun' & Hch & Hlines).
    assert (b'' = b') as -> by congruence.
    split; [apply linked_chain; eauto|].
    rewrite Hlines, length_insert. unfold extended.
    rewrite length_app, length_replicate. lia.
  - congruence.
  - congruence.
Qed.

(** ** Inserts at the limits of the array *)

(** X1: on a well-formed store an insert at a negative column or at a
    column of 128 or more is undefined behaviour: [text[x]] is read outside
    the array. *)
Theorem insert_outside_array b ch x y :
  well_formed b = true ->
  x < 0 \/ MAX_LINE_LEN <= x ->
  buffer_insert_character b ch x y = Undefined.
Proof.
  intros Hwf [Hneg|Hbig].
  - apply edit_row_undefined; [exact Hwf|].
    apply insert_in_text_negative, Hneg.
  - pose proof Hwf as [_ Hok]%well_formed_chain.
    destruct (extended_row b (row_of y) Hok) as (_ & _ & Hlen).
    apply edit_row_undefined; [exact Hwf|].
    apply insert_in_text_overrun; [apply length_padded; lia|exact Hbig].
Qed.

Lemma insert_outside_array_witness :
  well_formed abc_buffer = true
  /\ (-1 < 0 \/ MAX_LINE_LEN <= -1)
  /\ buffer_insert_character abc_buffer (of_char "X") (-1) 0 = Undefined.
Proof.
  split; [reflexivity|]. split; [left; lia|].
  apply (insert_outside_array abc_buffer (of_char "X") (-1) 0);
    [reflexivity|left; lia].
Defined.

(** X2: on a well-formed store an insert before the end of a line that
    already holds 127 characters is undefined behaviour: the shift loop
    writes the terminator to [text[128]]. *)
Theorem insert_into_full_line b ch x y :
  well_formed b = true ->
  length (row_content b (row_of y)) = 127%nat ->
  0 <= x < 127 ->
  buffer_insert_character b ch x y = Undefined.
Proof.
  intros Hwf HL Hx.
  apply insert_in_full_line_overruns; [exact Hwf| |].
  - rewrite HL. reflexivity.
  - unfold MAX_LINE_LEN. lia.
Qed.

Lemma insert_into_full_line_witness :
  well_formed full_line = true
  /\ length (row_content full_line (row_of 0)) = 127%nat
  /\ 0 <= 3 < 127
  /\ buffer_insert_character full_line (of_char "X") 3 0 = Undefined.
Proof.
  split; [reflexivity|]. split; [reflexivity|]. split; [lia|].
  apply (insert_into_full_line full_line (of_char "X") 3 0);
    [reflexivity|reflexivity|lia].
Defined.

Lemma remove_in_text_unterminated x s :
  printable s -> remove_in_text x s = Undefined.
Proof.
  intros Hs. unfold remove_in_text.
  destruct (x - 1 <? INT_MIN); [reflexivity|].
  cbn [remove_shift Z.to_nat]. rewrite strlen_printable by exact Hs. reflexivity.
Qed.

Lemma insert_in_text_unterminated ch x s :
  printable s -> length s = Z.to_nat MAX_LINE_LEN ->
  insert_in_text ch x s = Undefined.
Proof.
  intros Hs Hlen.
  destruct (Z_lt_le_dec x 0) as [Hneg|Hpos];
    [apply insert_in_text_negative, Hneg|].
  destruct (Z_lt_le_dec x MAX_LINE_LEN) as [Hin|Hout];
    [|apply insert_in_text_overrun; assumption].
  unfold insert_in_text.
  destruct (lookup_lt_is_Some_2 s (Z.to_nat x)) as [a Ha]; [pos_arith|].
  pose proof (take_drop_middle s (Z.to_nat x) a Ha) as Hsplit.
  assert (s = [] ++ take (Z.to_nat x) s ++ a :: drop (S (Z.to_nat x)) s) as Hshape
    by (cbn [app]; symmetry; exact Hsplit).
  assert (length (take (Z.to_nat x) s) = Z.to_nat x) as Hk
    by (apply length_take_le; pos_arith).
  rewrite Hshape at 1. rewrite <- Hk at 1.
  rewrite gap_fill_fills by (reflexivity || (cbn [length]; pos_arith)).
  cbn [bind app]. rewrite fill_printable by (apply Forall_take, Hs).
  rewrite text_read_middle by lia. cbn [bind].
  assert (is_nul a = false) as ->.
  { unfold printable in Hs. rewrite Forall_forall in Hs.
    apply Hs, list_elem_of_lookup. eauto. }
  rewrite Hsplit, strlen_printable by exact Hs. reflexivity.
Qed.

(** An insert at the last slot of the array overwrites the place of the
    terminator. *)
Lemma last_column_unterminates b ch y :
  well_formed b = true -> to_char ch <> NUL ->
  exists b',
    buffer_insert_character b ch 127 y = Returned b'
    /\ row_content b' (row_of y)
       = row_content b (row_of y)
         ++ replicate (127 - length (row_content b (row_of y))) SPACE
         ++ [to_char ch]
    /\ length (row_content b' (row_of y)) = 128%nat
    /\ well_formed b' = false
    /\ (forall x, buffer_remove_character b' x y = Undefined)
    /\ (forall ch' x, buffer_insert_character b' ch' x y = Undefined).
Proof.
  intros Hwf Hch.
  pose proof Hwf as [[addrs0 Hch0] Hok]%well_formed_chain.
  destruct (extended_row b (row_of y) Hok) as (Hrow & Hs & Hlen).
  set (s := row_content b (row_of y)) in *.
  set (s' := s ++ replicate (127 - length s) SPACE ++ [to_char ch]).
  assert (printable s') as Hs'.
  { apply Forall_app. split; [assumption|]. apply Forall_app.
    split; [apply printable_spaces|]. repeat constructor.
    destruct (is_nul (to_char ch)) eqn:E; [|reflexivity].
    apply is_nul_true in E. contradiction. }
  assert (length s' = 128%nat) as Hlen'.
  { unfold s'. rewrite !length_app, length_replicate. cbn [length]. pos_arith. }
  assert (padded s' = s') as Hfull.
  { unfold padded. rewrite Hlen'. cbn. apply app_nil_r. }
  pose proof (edit_linked (insert_in_text ch 127) b addrs0 y _ Hch0 Hrow) as Hedit.
  rewrite insert_in_text_end in Hedit by (assumption || pos_arith).
  change (Z.to_nat 127) with 127%nat in Hedit. fold s' in Hedit.
  rewrite Hfull in Hedit.
  destruct Hedit as (b' & addrs & Hins & Hchain & Hlines).
  assert (lines b' !! row_of y = Some s') as Hline.
  { rewrite Hlines. apply list_lookup_insert_eq, extended_length. }
  assert (extended b' (row_of y) !! row_of y = Some s') as Hext.
  { unfold extended. rewrite lookup_app_l by (apply lookup_lt_Some in Hline; exact Hline).
    exact Hline. }
  exists b'. split; [exact Hins|].
  assert (row_content b' (row_of y) = s') as Hrow'.
  { unfold row_content. rewrite Hline. apply content_all, Hs'. }
  split; [exact Hrow'|]. split; [rewrite Hrow'; exact Hlen'|].
  split; [|split].
  - unfold well_formed. apply andb_false_iff. right.
    destruct (forallb line_ok (lines b')) eqn:Hall; [|reflexivity].
    rewrite forallb_forall in Hall.
    specialize (Hall s' (proj1 (list_elem_of_In _ _)
                           (proj2 (list_elem_of_lookup _ _) (ex_intro _ _ Hline)))).
    unfold line_ok in Hall.
    rewrite (terminated_printable s' Hs'), andb_false_r in Hall. discriminate.
  - intros x.
    pose proof (edit_linked (remove_in_text x) b' addrs y _ Hchain Hext) as H.
    rewrite remove_in_text_unterminated in H by exact Hs'. exact H.
  - intros ch' x.
    pose proof (edit_linked (insert_in_text ch' x) b' addrs y _ Hchain Hext) as H.
    rewrite insert_in_text_unterminated in H by (assumption || exact Hlen').
    exact H.
Qed.

(** X3: on a well-formed store an insert at column 127, the last slot of
    the array, returns: the row then reads its old content, spaces up to
    column 127 and the character, 128 characters with no terminator after
    them.  The store is no longer well formed, and every later delete or
    insert on that row is undefined behaviour ([strlen] leaves the
    array). *)
Theorem insert_at_last_column b ch y :
  well_formed b = true -> to_char ch <> NUL ->
  exists b',
    buffer_insert_character b ch 127 y = Returned b'
    /\ row_content b' (row_of y)
       = row_content b (row_of y)
         ++ replicate (127 - length (row_content b (row_of y))) SPACE
         ++ [to_char ch]
    /\ length (row_content b' (row_of y)) = 128%nat
    /\ well_formed b' = false
    /\ (forall x, buffer_remove_character b' x y = Undefined)
    /\ (forall ch' x, buffer_insert_character b' ch' x y = Undefined).
Proof.
  intros Hwf Hch.
  destruct (last_column_unterminates b ch y Hwf Hch)
    as (b' & Hins & Hrow & Hlen & Hwf' & Hdel & Hins').
  exists b'. auto 7.
Qed.

Lemma insert_at_last_column_witness :
  well_formed abc_buffer = true /\ to_char (of_char "X") <> NUL
  /\ exists b',
       buffer_insert_character abc_buffer (of_char "X") 127 0 = Returned b'
       /\ row_content b' (row_of 0)
          = row_content abc_buffer (row_of 0)
            ++ replicate (127 - length (row_content abc_buffer (row_of 0))) SPACE
            ++ [to_char (of_char "X")]
       /\ length (row_content b' (row_of 0)) = 128%nat
       /\ well_formed b' = false
       /\ (forall x, buffer_remove_character b' x 0 = Undefined)
       /\ (forall ch' x, buffer_insert_character b' ch' x 0 = Undefined).
Proof.
  split; [reflexivity|]. split; [discriminate|].
  apply (insert_at_last_column abc_buffer (of_char "X") 0);
    [reflexivity|discriminate].
Defined.

(** ** What an edit does to the store *)

(** An insert at a column before the last slot, in a row with room for
    one more character: one formula for a column inside and for a column
    past the content. *)
Lemma insert_in_range b ch x y :
  well_formed b = true -> to_char ch <> NUL ->
  0 <= x < MAX_LINE_LEN - 1 ->
  Z.of_nat (length (row_content b (row_of y))) + 1 < MAX_LINE_LEN ->
  exists b',
    buffer_insert_character b ch x y = Returned b'
    /\ well_formed b' = true
    /\ row_content b' (row_of y)
       = take (Z.to_nat x) (row_content b (row_of y))
         ++ replicate (Z.to_nat x - length (row_content b (row_of y))) SPACE
         ++ to_char ch :: drop (Z.to_nat x) (row_content b (row_of y))
    /\ forall r, r <> row_of y -> row_content b' r = row_content b r.
Proof.
  intros Hwf Hch Hx HL.
  destruct (Z_le_gt_dec x (Z.of_nat (length (row_content b (row_of y)))))
    as [Hin|Hout].
  - destruct (insert_splices b ch x y Hwf) as (b' & Hins & Hwf' & Hrow & Hothers);
      [lia|exact HL|exact Hch|].
    exists b'. do 2 (split; [assumption|]). split; [|exact Hothers].
    rewrite Hrow.
    replace (Z.to_nat x - length (row_content b (row_of y)))%nat with 0%nat by lia.
    reflexivity.
  - destruct (insert_past_end b ch x y Hwf) as (b' & Hins & Hrow & Hothers & Hwf');
      [lia|exact Hch|].
    exists b'. split; [exact Hins|]. split; [apply Hwf'; lia|].
    split; [|exact Hothers].
    rewrite Hrow, take_ge, drop_ge by lia. reflexivity.
Qed.

(** X4: on a well-formed store, an insert of a character other than the
    terminator at a column [0 <= x < 127] of a row that holds at most 126
    characters returns and leaves a well-formed store.  The row then reads:
    its content before [x], spaces for the columns between the end of the
    content and [x] if [x] is past the end, the character, and the content
    from [x] on.  The content of the other rows is what it was. *)
Theorem insert_splices_or_pads b ch x y :
  well_formed b = true -> to_char ch <> NUL ->
  0 <= x < 127 ->
  (length (row_content b (row_of y)) <= 126)%nat ->
  exists b',
    buffer_insert_character b ch x y = Returned b'
    /\ well_formed b' = true
    /\ row_content b' (row_of y)
       = take (Z.to_nat x) (row_content b (row_of y))
         ++ replicate (Z.to_nat x - length (row_content b (row_of y))) SPACE
         ++ to_char ch :: drop (Z.to_nat x) (row_content b (row_of y))
    /\ length (row_content b' (row_of y))
       = S (Nat.max (Z.to_nat x) (length (row_content b (row_of y))))
    /\ forall r, r <> row_of y -> row_content b' r = row_content b r.
Proof.
  intros Hwf Hch Hx HL.
  destruct (insert_in_range b ch x y Hwf Hch)
    as (b' & Hins & Hwf' & Hrow & Hothers); [pos_arith|pos_arith|].
  exists b'. do 3 (split; [assumption|]). split; [|exact Hothers].
  rewrite Hrow, !length_app, length_replicate. cbn [length].
  rewrite length_take, length_drop. lia.
Qed.

Lemma insert_splices_or_pads_witness :
  well_formed two_lines = true /\ to_char (of_char "X") <> NUL
  /\ 0 <= 4 < 127
  /\ (length (row_content two_lines (row_of 0)) <= 126)%nat
  /\ exists b',
       buffer_insert_character two_lines (of_char "X") 4 0 = Returned b'
       /\ well_formed b' = true
       /\ row_content b' (row_of 0)
          = take (Z.to_nat 4) (row_content two_lines (row_of 0))
            ++ replicate (Z.to_nat 4 - length (row_content two_lines (row_of 0))) SPACE
            ++ to_char (of_char "X") :: drop (Z.to_nat 4) (row_content two_lines (row_of 0))
       /\ length (row_content b' (row_of 0))
          = S (Nat.max (Z.to_nat 4) (length (row_content two_lines (row_of 0))))
       /\ forall r, r <> row_of 0 -> row_content b' r = row_content two_lines r.
Proof.
  split; [reflexivity|]. split; [discriminate|]. split; [lia|].
  split; [vm_compute; lia|].
  apply (insert_splices_or_pads two_lines (of_char "X") 4 0);
    [reflexivity|discriminate|lia|vm_compute; lia].
Defined.

(** X5: on a well-formed store, an insert of a character whose low byte
    is zero (the terminator itself) at a column [x] inside the content of a
    row that holds at most 126 characters returns, and cuts the content of
    the row at [x]. *)
Theorem insert_terminator_cuts b ch x y :
  well_formed b = true -> to_char ch = NUL ->
  0 <= x <= Z.of_nat (length (row_content b (row_of y))) ->
  (length (row_content b (row_of y)) <= 126)%nat ->
  exists b',
    buffer_insert_character b ch x y = Returned b'
    /\ row_content b' (row_of y) = take (Z.to_nat x) (row_content b (row_of y))
    /\ forall r, r <> row_of y -> row_content b' r = row_content b r.
Proof.
  intros Hwf Hch Hx HL.
  pose proof Hwf as [_ Hok]%well_formed_chain.
  destruct (extended_row b (row_of y) Hok) as (_ & Hs & Hlen).
  set (s := row_content b (row_of y)) in *.
  destruct (edit_row (insert_in_text ch x) b y
              (padded (take (Z.to_nat x) s ++ to_char ch :: drop (Z.to_nat x) s)) Hwf)
    as (b' & Hedit & Hlines & _);
    [apply insert_in_text_splices; [assumption|lia|pos_arith]|].
  exists b'. split; [exact Hedit|].
  destruct (edited_row_content _ _ _ _ Hlines) as [Hrow Hothers].
  split; [|exact Hothers].
  rewrite Hrow, Hch. unfold padded. rewrite <- app_assoc. cbn [app].
  apply content_app_nul, Forall_take, Hs.
Qed.

Lemma insert_terminator_cuts_witness :
  well_formed abc_buffer = true /\ to_char 0 = NUL
  /\ 0 <= 1 <= Z.of_nat (length (row_content abc_buffer (row_of 0)))
  /\ (length (row_content abc_buffer (row_of 0)) <= 126)%nat
  /\ exists b',
       buffer_insert_character abc_buffer 0 1 0 = Returned b'
       /\ row_content b' (row_of 0)
          = take (Z.to_nat 1) (row_content abc_buffer (row_of 0))
       /\ forall r, r <> row_of 0 -> row_content b' r = row_content abc_buffer r.
Proof.
  split; [reflexivity|]. split; [reflexivity|]. split; [vm_compute; split; discriminate|].
  split; [vm_compute; lia|].
  apply (insert_terminator_cuts abc_buffer 0 1 0);
    [reflexivity|reflexivity|vm_compute; split; discriminate|vm_compute; lia].
Defined.

(** An edit that returns changes the content of its row only. *)
Lemma edit_frame f b y b' :
  linked b = true ->
  (do b1 <- buffer_select_node b y; on_current_text f b1) = Returned b' ->
  forall r, r <> row_of y -> row_content b' r = row_content b r.
Proof.
  intros [addrs0 Hch0]%linked_chain Hrun.
  destruct (extended_row_some b (row_of y)) as [t Ht].
  pose proof (edit_linked f b addrs0 y t Hch0 Ht) as Hedit.
  destruct (f t) as [t'| |]; [|congruence..].
  destruct Hedit as (b'' & addrs & Hrun' & _ & Hlines).
  assert (b'' = b') as -> by congruence.
  apply (edited_row_content _ _ _ _ Hlines).
Qed.

(** X6: whenever [buffer_insert_character] returns on a linked store, the
    store is still linked, it has the lines it had and, if row [y] did not
    exist, the lines up to row [y] (no line is ever removed), and the
    content of every row other than [y] is what it was. *)
Theorem insert_touches_one_row b ch x y b' :
  linked b = true ->
  buffer_insert_character b ch x y = Returned b' ->
  linked b' = true
  /\ length (lines b') = Nat.max (length (lines b)) (S (row_of y))
  /\ forall r, r <> row_of y -> row_content b' r = row_content b r.
Proof.
  intros Hl Hrun. unfold buffer_insert_character in Hrun.
  destruct (edit_keeps_linked _ _ _ _ Hl Hrun) as [Hl' Hcount].
  split; [exact Hl'|]. split; [exact Hcount|].
  apply (edit_frame _ _ _ _ Hl Hrun).
Qed.

Lemma insert_touches_one_row_witness :
  linked two_lines = true
  /\ buffer_insert_character two_lines (of_char "X") 2 3
     = Returned
         (Buf [Node (padded (list_ascii_of_string "Hi")) (Some 1%nat);
               Node (padded (list_ascii_of_string "there")) (Some 2%nat);
               Node empty_text (Some 3%nat);
               Node (padded (list_ascii_of_string "  X")) None]
              (Some 0%nat) (Some 3%nat))
  /\ exists b',
       linked b' = true
       /\ length (lines b') = Nat.max (length (lines two_lines)) (S (row_of 3))
       /\ forall r, r <> row_of 3 -> row_content b' r = row_content two_lines r.
Proof.
  split; [reflexivity|]. split; [vm_compute; reflexivity|].
  eexists.
  apply (insert_touches_one_row two_lines (of_char "X") 2 3);
    [reflexivity|vm_compute; reflexivity].
Defined.

(** X7: whenever [buffer_remove_character] returns on a linked store, the
    store is still linked, it has the lines it had and, if row [y] did not
    exist, the lines up to row [y], and the content of every row other
    than [y] is what it was. *)
Theorem remove_touches_one_row b x y b' :
  linked b = true ->
  buffer_remove_character b x y = Returned b' ->
  linked b' = true
  /\ length (lines b') = Nat.max (length (lines b)) (S (row_of y))
  /\ forall r, r <> row_of y -> row_content b' r = row_content b r.
Proof.
  intros Hl Hrun. unfold buffer_remove_character in Hrun.
  destruct (edit_keeps_linked _ _ _ _ Hl Hrun) as [Hl' Hcount].
  split; [exact Hl'|]. split; [exact Hcount|].
  apply (edit_frame _ _ _ _ Hl Hrun).
Qed.

Lemma remove_touches_one_row_witness :
  linked two_lines = true
  /\ buffer_remove_character two_lines 2 1
     = Returned
         (Buf [Node (padded (list_ascii_of_string "Hi")) (Some 1%nat);
               Node (padded (list_ascii_of_string "tere")) None]
              (Some 0%nat) (Some 1%nat))
  /\ exists b',
       linked b' = true
       /\ length (lines b') = Nat.max (length (lines two_lines)) (S (row_of 1))
       /\ forall r, r <> row_of 1 -> row_content b' r = row_content two_lines r.
Proof.
  split; [reflexivity|]. split; [vm_compute; reflexivity|].
  eexists.
  apply (remove_touches_one_row two_lines 2 1);
    [reflexivity|vm_compute; reflexivity].
Defined.

(** X8: on a well-formed store a delete at any column [x] that an [int]
    holds, except [INT_MIN] (where [x - 1] overflows), returns and leaves a
    well-formed store.  For [1 <= x <= L], [L] the length of the content
    of the row, the character at position [x - 1] is removed; for every
    other column the content is what it was.  The content of the other
    rows is what it was. *)
Theorem remove_at_any_column b x y :
  well_formed b = true -> INT_MIN < x <= INT_MAX ->
  exists b',
    buffer_remove_character b x y = Returned b'
    /\ well_formed b' = true
    /\ row_content b' (row_of y)
       = (if (1 <=? x) && (x <=? Z.of_nat (length (row_content b (row_of y))))
          then take (Z.to_nat (x - 1)) (row_content b (row_of y))
               ++ drop (Z.to_nat x) (row_content b (row_of y))
          else row_content b (row_of y))
    /\ forall r, r <> row_of y -> row_content b' r = row_content b r.
Proof.
  intros Hwf Hx.
  destruct (Z.leb_spec 1 x) as [H1|H1];
    [destruct (Z.leb_spec x (Z.of_nat (length (row_content b (row_of y)))))
       as [HL|HL]|]; cbn [andb].
  - destruct (remove_closes b x y Hwf) as (b' & Hdel & Hwf' & Hrow & Hothers);
      [lia|]. exists b'. auto.
  - destruct (remove_skips b x y Hwf Hx) as (b' & Hdel & Hwf' & _ & Hrows);
      [right; lia|]. exists b'. auto.
  - destruct (remove_skips b x y Hwf Hx) as (b' & Hdel & Hwf' & _ & Hrows);
      [left; lia|]. exists b'. auto.
Qed.

Lemma remove_at_any_column_witness :
  well_formed two_lines = true /\ INT_MIN < -5 <= INT_MAX
  /\ exists b',
       buffer_remove_character two_lines (-5) 1 = Returned b'
       /\ well_formed b' = true
       /\ row_content b' (row_of 1)
          = (if (1 <=? -5)
                && (-5 <=? Z.of_nat (length (row_content two_lines (row_of 1))))
             then take (Z.to_nat (-5 - 1)) (row_content two_lines (row_of 1))
                  ++ drop (Z.to_nat (-5)) (row_content two_lines (row_of 1))
             else row_content two_lines (row_of 1))
       /\ forall r, r <> row_of 1 -> row_content b' r = row_content two_lines r.
Proof.
  split; [reflexivity|]. split; [unfold INT_MIN, INT_MAX; lia|].
  apply (remove_at_any_column two_lines (-5) 1);
    [reflexivity|unfold INT_MIN, INT_MAX; lia].
Defined.

(** ** Selecting a row that exists, and what selecting never changes *)

Lemma extended_content b r0 r :
  match extended b r0 !! r with Some t => content t | None => [] end
  = row_content b r.
Proof.
  unfold extended, row_content.
  destruct (lines b !! r) as [t|] eqn:Ht.
  - rewrite (lookup_app_l_Some _ _ _ _ Ht). reflexivity.
  - apply lookup_ge_None in Ht. rewrite lookup_app_r by exact Ht.
    destruct (replicate _ _ !! _) as [t|] eqn:Hr; [|reflexivity].
    apply lookup_replicate in Hr as [-> _]. reflexivity.
Qed.

(** X9: on a linked store, [buffer_select_node] of a row that exists
    returns without allocating or writing: heap and [head] are what they
    were, and [current] is the node whose text the line walk of [main]
    shows at that row. *)
Theorem select_existing_row b y :
  linked b = true ->
  (row_of y < length (lines b))%nat ->
  exists a,
    buffer_select_node b y = Returned (Buf (heap b) (head b) (Some a))
    /\ lines b !! row_of y = Some (text_at (heap b) a).
Proof.
  intros [addrs Hch]%linked_chain Hy.
  pose proof Hch as [_ Hseg].
  rewrite (lines_chain _ _ Hch), length_map in Hy.
  destruct (lookup_lt_is_Some_2 addrs (row_of y) Hy) as [a Ha].
  destruct (lookup_lt_is_Some_2 addrs 0%nat) as [a0 Ha0]; [lia|].
  pose proof (list_seg_head _ _ _ Hseg) as Hhead. rewrite Ha0 in Hhead.
  exists a. split.
  - unfold buffer_select_node. rewrite Hhead.
    rewrite <- Hhead.
    apply (select_walk_follows (Z.to_nat y) (Buf (heap b) (head b) (head b))
             addrs 0%nat a0 a); [exact Hch|exact Ha0|exact Hhead|exact Ha].
  - rewrite (lines_chain _ _ Hch), list_lookup_fmap, Ha. reflexivity.
Qed.

Lemma select_existing_row_witness :
  linked two_lines = true
  /\ (row_of 1 < length (lines two_lines))%nat
  /\ exists a,
       buffer_select_node two_lines 1
       = Returned (Buf (heap two_lines) (head two_lines) (Some a))
       /\ lines two_lines !! row_of 1 = Some (text_at (heap two_lines) a).
Proof.
  split; [reflexivity|]. split; [vm_compute; lia|].
  apply (select_existing_row two_lines 1); [reflexivity|vm_compute; lia].
Defined.

(** X10: on a linked store [buffer_select_node] returns for every [y] and
    changes no text: the store is still linked, every line that existed is
    in place with the same characters, the content of every row is what
    it was (a created row is empty), and a well-formed store stays well
    formed. *)
Theorem select_changes_no_text b y :
  linked b = true ->
  exists b',
    buffer_select_node b y = Returned b'
    /\ linked b' = true
    /\ (forall r t, lines b !! r = Some t -> lines b' !! r = Some t)
    /\ (forall r, row_content b' r = row_content b r)
    /\ (well_formed b = true -> well_formed b' = true).
Proof.
  intros Hl. pose proof Hl as [addrs0 Hch0]%linked_chain.
  destruct (buffer_select_node_rows b addrs0 y Hch0)
    as (b' & addrs & a & Hsel & Hch & _ & _ & Hlines & _).
  exists b'. split; [exact Hsel|]. split; [apply linked_chain; eauto|].
  split; [|split].
  - intros r t Ht. rewrite Hlines. unfold extended.
    apply lookup_app_l_Some, Ht.
  - intros r. unfold row_content at 1. rewrite Hlines. apply extended_content.
  - intros Hwf. destruct (select_keeps_well_formed b y Hwf) as (b'' & Hsel' & Hwf').
    congruence.
Qed.

Lemma select_changes_no_text_witness :
  linked two_lines = true
  /\ exists b',
       buffer_select_node two_lines 5 = Returned b'
       /\ linked b' = true
       /\ (forall r t, lines two_lines !! r = Some t -> lines b' !! r = Some t)
       /\ (forall r, row_content b' r = row_content two_lines r)
       /\ (well_formed two_lines = true -> well_formed b' = true).
Proof.
  split; [reflexivity|]. apply (select_changes_no_text two_lines 5). reflexivity.
Defined.

(** ** Sequences of keys *)

Lemma int_add_in_range a d :
  INT_MIN <= a + d <= INT_MAX -> int_add a d = Returned (a + d).
Proof.
  intros Hr. unfold int_add.
  destruct (Z.leb_spec INT_MIN (a + d)), (Z.leb_spec (a + d) INT_MAX);
    cbn [andb]; try reflexivity; lia.
Qed.

Lemma small_is_int a : -1 <= a <= MAX_LINE_LEN -> INT_MIN <= a <= INT_MAX.
Proof. unfold MAX_LINE_LEN, INT_MIN, INT_MAX. lia. Qed.

(** X12: on a well-formed store, with the cursor at a column [0 <= x < 127]
    of a row that holds [L <= 126] characters, a printable key followed by
    the delete key returns with the cursor where it was and a well-formed
    store.  The row reads what it read, followed by [x - L] spaces if the
    cursor was past the end of the content: the padding of the insert
    stays.  The content of the other rows is what it was. *)
Theorem type_then_delete e ch :
  well_formed (buffer e) = true -> isprint ch = true ->
  0 <= cursor_x e < 127 ->
  (length (row_content (buffer e) (row_of (cursor_y e))) <= 126)%nat ->
  exists e2,
    handle_keys e [KeyOther ch; KeyDelete] = Returned e2
    /\ well_formed (buffer e2) = true
    /\ cursor_x e2 = cursor_x e /\ cursor_y e2 = cursor_y e
    /\ row_content (buffer e2) (row_of (cursor_y e))
       = row_content (buffer e) (row_of (cursor_y e))
         ++ replicate (Z.to_nat (cursor_x e)
                       - length (row_content (buffer e) (row_of (cursor_y e))))
              SPACE
    /\ forall r, r <> row_of (cursor_y e) ->
         row_content (buffer e2) r = row_content (buffer e) r.
Proof.
  intros Hwf Hprint Hx HL.
  destruct e as [b x y]. cbn [buffer cursor_x cursor_y] in *.
  set (s := row_content b (row_of y)) in *.
  destruct (insert_in_range b ch x y Hwf (isprint_not_nul ch Hprint))
    as (b1 & Hins & Hwf1 & Hrow1 & Hothers1); [pos_arith|fold s; pos_arith|].
  fold s in Hrow1.
  set (k := Z.to_nat x) in *.
  set (pre := take k s ++ replicate (k - length s) SPACE) in *.
  assert (length pre = k) as Hpre.
  { unfold pre. rewrite length_app, length_take, length_replicate. lia. }
  assert (row_content b1 (row_of y) = pre ++ to_char ch :: drop k s) as Hrow1'
    by (rewrite Hrow1; unfold pre; rewrite <- app_assoc; reflexivity).
  destruct (remove_closes b1 (x + 1) y Hwf1)
    as (b2 & Hdel & Hwf2 & Hrow2 & Hothers2).
  { rewrite Hrow1', length_app. cbn [length]. lia. }
  exists (Editor b2 x y). split.
  - cbn [handle_keys handle_key buffer cursor_x cursor_y]. rewrite Hprint.
    rewrite Hins. cbn [bind].
    rewrite int_add_in_range by (apply small_is_int; pos_arith). cbn [bind].
    cbn [buffer cursor_x cursor_y]. rewrite Hdel. cbn [bind].
    rewrite int_add_in_range by (apply small_is_int; pos_arith). cbn [bind].
    replace (x + 1 + -1) with x by lia. reflexivity.
  - cbn [buffer cursor_x cursor_y]. split; [exact Hwf2|].
    split; [reflexivity|]. split; [reflexivity|]. split.
    + rewrite Hrow2, Hrow1'.
      replace (Z.to_nat (x + 1 - 1)) with k by lia.
      replace (Z.to_nat (x + 1)) with (S k) by lia.
      rewrite take_app_length' by (symmetry; exact Hpre).
      replace (drop (S k) (pre ++ to_char ch :: drop k s)) with (drop k s).
      * unfold pre. rewrite <- app_assoc.
        destruct (decide (k <= length s)%nat) as [Hin|Hout].
        -- replace (k - length s)%nat with 0%nat by lia. cbn [replicate app].
           rewrite take_drop, app_nil_r. reflexivity.
        -- rewrite take_ge, drop_ge by lia. rewrite app_nil_r. reflexivity.
      * rewrite drop_app_ge by lia. rewrite Hpre.
        replace (S k - k)%nat with 1%nat by lia. reflexivity.
    + intros r Hr. rewrite Hothers2, Hothers1 by exact Hr. reflexivity.
Qed.

Lemma type_then_delete_witness :
  well_formed (buffer (Editor two_lines 6 0)) = true
  /\ isprint (of_char "X") = true
  /\ 0 <= cursor_x (Editor two_lines 6 0) < 127
  /\ (length (row_content (buffer (Editor two_lines 6 0))
                (row_of (cursor_y (Editor two_lines 6 0)))) <= 126)%nat
  /\ exists e2,
       handle_keys (Editor two_lines 6 0) [KeyOther (of_char "X"); KeyDelete]
       = Returned e2
       /\ well_formed (buffer e2) = true
       /\ cursor_x e2 = cursor_x (Editor two_lines 6 0)
       /\ cursor_y e2 = cursor_y (Editor two_lines 6 0)
       /\ row_content (buffer e2) (row_of (cursor_y (Editor two_lines 6 0)))
          = row_content (buffer (Editor two_lines 6 0))
              (row_of (cursor_y (Editor two_lines 6 0)))
            ++ replicate
                 (Z.to_nat (cursor_x (Editor two_lines 6 0))
                  - length (row_content (buffer (Editor two_lines 6 0))
                              (row_of (cursor_y (Editor two_lines 6 0)))))
                 SPACE
       /\ forall r, r <> row_of (cursor_y (Editor two_lines 6 0)) ->
            row_content (buffer e2) r
            = row_content (buffer (Editor two_lines 6 0)) r.
Proof.
  split; [reflexivity|]. split; [reflexivity|]. split; [cbn; lia|].
  split; [vm_compute; lia|].
  apply (type_then_delete (Editor two_lines 6 0) (of_char "X"));
    [reflexivity|reflexivity|cbn; lia|vm_compute; lia].
Defined.

Lemma type_at_end s : forall e,
  well_formed (buffer e) = true ->
  forallb (fun c => isprint (of_char c)) s = true ->
  cursor_x e = Z.of_nat (length (row_content (buffer e) (row_of (cursor_y e)))) ->
  (length (row_content (buffer e) (row_of (cursor_y e))) + length s <= 127)%nat ->
  exists e',
    handle_keys e (map (fun c => KeyOther (of_char c)) s) = Returned e'
    /\ well_formed (buffer e') = true
    /\ row_content (buffer e') (row_of (cursor_y e))
       = row_content (buffer e) (row_of (cursor_y e)) ++ s
    /\ cursor_x e' = cursor_x e + Z.of_nat (length s)
    /\ cursor_y e' = cursor_y e
    /\ forall r, r <> row_of (cursor_y e) ->
         row_content (buffer e') r = row_content (buffer e) r.
Proof.
  induction s as [|c s IH]; intros e Hwf Hprint Hx Hroom.
  - exists e. cbn [map handle_keys length]. rewrite app_nil_r, Z.add_0_r. auto 7.
  - cbn [forallb] in Hprint. apply andb_true_iff in Hprint as [Hc Hs].
    destruct e as [b x y]. cbn [buffer cursor_x cursor_y length] in *.
    set (old := row_content b (row_of y)) in *.
    assert (to_char (of_char c) <> NUL) as Hcn by (apply isprint_not_nul, Hc).
    destruct (insert_splices b (of_char c) x y Hwf)
      as (b1 & Hins & Hwf1 & Hrow1 & Hothers1);
      [fold old; lia|fold old; pos_arith|exact Hcn|].
    fold old in Hrow1.
    rewrite to_char_of_char, Hx, Nat2Z.id, take_ge, drop_ge in Hrow1 by lia.
    destruct (IH (Editor b1 (x + 1) y)) as (e' & Hrun & Hwf' & Hrow' & Hx' & Hy' & Hothers');
      cbn [buffer cursor_x cursor_y].
    { exact Hwf1. }
    { exact Hs. }
    { rewrite Hrow1, length_app. cbn [length]. lia. }
    { rewrite Hrow1, length_app. cbn [length]. lia. }
    cbn [buffer cursor_x cursor_y] in *.
    exists e'. split.
    + cbn [map handle_keys handle_key buffer cursor_x cursor_y].
      rewrite Hc, Hins. cbn [bind].
      rewrite int_add_in_range by (apply small_is_int; pos_arith). cbn [bind].
      exact Hrun.
    + split; [exact Hwf'|]. split.
      * rewrite Hrow', Hrow1, <- app_assoc. reflexivity.
      * split; [lia|]. split; [exact Hy'|].
        intros r Hr. rewrite Hothers', Hothers1 by exact Hr. reflexivity.
Qed.

(** X13: on a well-formed store, with the cursor at the end of the
    content of its row, typing printable characters that fit into the line
    (at most 127 characters in all) returns with a well-formed store; the
    row reads its old content followed by the typed characters, in order,
    the cursor has moved right by their number, and the content of the
    other rows is what it was. *)
Theorem typing_appends e s :
  well_formed (buffer e) = true ->
  forallb (fun c => isprint (of_char c)) s = true ->
  cursor_x e = Z.of_nat (length (row_content (buffer e) (row_of (cursor_y e)))) ->
  (length (row_content (buffer e) (row_of (cursor_y e))) + length s <= 127)%nat ->
  exists e',
    handle_keys e (map (fun c => KeyOther (of_char c)) s) = Returned e'
    /\ well_formed (buffer e') = true
    /\ row_content (buffer e') (row_of (cursor_y e))
       = row_content (buffer e) (row_of (cursor_y e)) ++ s
    /\ cursor_x e' = cursor_x e + Z.of_nat (length s)
    /\ cursor_y e' = cursor_y e
    /\ forall r, r <> row_of (cursor_y e) ->
         row_content (buffer e') r = row_content (buffer e) r.
Proof.
  intros Hwf Hprint Hx Hroom.
  destruct (type_at_end s e Hwf Hprint Hx Hroom)
    as (e' & Hrun & Hwf' & Hrow & Hx' & Hy' & Hothers).
  exists e'. auto 7.
Qed.

Lemma typing_appends_witness :
  well_formed (buffer (Editor two_lines 5 1)) = true
  /\ forallb (fun c => isprint (of_char c)) (list_ascii_of_string ", you") = true
  /\ cursor_x (Editor two_lines 5 1)
     = Z.of_nat (length (row_content (buffer (Editor two_lines 5 1))
                           (row_of (cursor_y (Editor two_lines 5 1)))))
  /\ (length (row_content (buffer (Editor two_lines 5 1))
                (row_of (cursor_y (Editor two_lines 5 1))))
      + length (list_ascii_of_string ", you") <= 127)%nat
  /\ exists e',
       handle_keys (Editor two_lines 5 1)
         (map (fun c => KeyOther (of_char c)) (list_ascii_of_string ", you"))
       = Returned e'
       /\ well_formed (buffer e') = true
       /\ row_content (buffer e') (row_of (cursor_y (Editor two_lines 5 1)))
          = row_content (buffer (Editor two_lines 5 1))
              (row_of (cursor_y (Editor two_lines 5 1)))
            ++ list_ascii_of_string ", you"
       /\ cursor_x e'
          = cursor_x (Editor two_lines 5 1)
            + Z.of_nat (length (list_ascii_of_string ", you"))
       /\ cursor_y e' = cursor_y (Editor two_lines 5 1)
       /\ forall r, r <> row_of (cursor_y (Editor two_lines 5 1)) ->
            row_content (buffer e') r
            = row_content (buffer (Editor two_lines 5 1)) r.
Proof.
  split; [reflexivity|]. split; [reflexivity|]. split; [reflexivity|].
  split; [vm_compute; lia|].
  apply (typing_appends (Editor two_lines 5 1) (list_ascii_of_string ", you"));
    [reflexivity|reflexivity|reflexivity|vm_compute; lia].
Defined.

Lemma backspaces_from k : forall e pre suf,
  well_formed (buffer e) = true ->
  row_content (buffer e) (row_of (cursor_y e)) = pre ++ suf ->
  cursor_x e = Z.of_nat (length pre) ->
  (k <= length pre)%nat ->
  exists e',
    handle_keys e (replicate k KeyDelete) = Returned e'
    /\ well_formed (buffer e') = true
    /\ row_content (buffer e') (row_of (cursor_y e))
       = take (length pre - k) pre ++ suf
    /\ cursor_x e' = cursor_x e - Z.of_nat k
    /\ cursor_y e' = cursor_y e
    /\ forall r, r <> row_of (cursor_y e) ->
         row_content (buffer e') r = row_content (buffer e) r.
Proof.
  induction k as [|k IH]; intros e pre suf Hwf Hrow Hx Hk.
  - exists e. cbn [replicate handle_keys].
    rewrite Nat.sub_0_r, firstn_all, Z.sub_0_r. auto 7.
  - destruct e as [b x y]. cbn [buffer cursor_x cursor_y] in *.
    pose proof Hwf as [_ Hok]%well_formed_chain.
    destruct (extended_row b (row_of y) Hok) as (_ & _ & Hlen).
    rewrite Hrow, length_app in Hlen.
    destruct (remove_closes b x y Hwf) as (b1 & Hdel & Hwf1 & Hrow1 & Hothers1);
      [rewrite Hrow, length_app; lia|].
    rewrite Hrow, Hx in Hrow1.
    replace (Z.to_nat (Z.of_nat (length pre) - 1)) with (length pre - 1)%nat
      in Hrow1 by lia.
    rewrite Nat2Z.id, take_app_le, drop_app_length in Hrow1 by lia.
    destruct (IH (Editor b1 (x - 1) y) (take (length pre - 1) pre) suf)
      as (e' & Hrun & Hwf' & Hrow' & Hx' & Hy' & Hothers');
      cbn [buffer cursor_x cursor_y].
    { exact Hwf1. }
    { exact Hrow1. }
    { rewrite length_take_le by lia. lia. }
    { rewrite length_take_le by lia. lia. }
    cbn [buffer cursor_x cursor_y] in *.
    exists e'. split.
    + cbn [replicate handle_keys handle_key buffer cursor_x cursor_y].
      rewrite Hdel. cbn [bind].
      rewrite int_add_in_range by (apply small_is_int; pos_arith). cbn [bind].
      replace (x + -1) with (x - 1) by lia. exact Hrun.
    + split; [exact Hwf'|]. split.
      * rewrite Hrow', length_take_le, take_take by lia. do 2 f_equal. lia.
      * split; [lia|]. split; [exact Hy'|].
        intros r Hr. rewrite Hothers', Hothers1 by exact Hr. reflexivity.
Qed.

(** X14: on a well-formed store, with the cursor at a column [x] inside or
    at the end of the content of its row, [k <= x] presses of the delete
    key return with a well-formed store; the [k] characters before the
    cursor are gone, the characters before them and from the cursor on are
    kept, the cursor has moved left by [k], and the content of the other
    rows is what it was. *)
Theorem backspaces_remove_before_cursor e k :
  well_formed (buffer e) = true ->
  0 <= cursor_x e
    <= Z.of_nat (length (row_content (buffer e) (row_of (cursor_y e)))) ->
  Z.of_nat k <= cursor_x e ->
  exists e',
    handle_keys e (replicate k KeyDelete) = Returned e'
    /\ well_formed (buffer e') = true
    /\ row_content (buffer e') (row_of (cursor_y e))
       = take (Z.to_nat (cursor_x e) - k)
           (row_content (buffer e) (row_of (cursor_y e)))
         ++ drop (Z.to_nat (cursor_x e))
              (row_content (buffer e) (row_of (cursor_y e)))
    /\ cursor_x e' = cursor_x e - Z.of_nat k
    /\ cursor_y e' = cursor_y e
    /\ forall r, r <> row_of (cursor_y e) ->
         row_content (buffer e') r = row_content (buffer e) r.
Proof.
  intros Hwf Hx Hk.
  set (s := row_content (buffer e) (row_of (cursor_y e))) in *.
  set (n := Z.to_nat (cursor_x e)).
  assert (length (take n s) = n) as Hn by (apply length_take_le; lia).
  destruct (backspaces_from k e (take n s) (drop n s) Hwf)
    as (e' & Hrun & Hwf' & Hrow & Hx' & Hy' & Hothers);
    [symmetry; apply take_drop|lia|lia|].
  exists e'. do 2 (split; [assumption|]).
  split; [|auto].
  fold s in Hrow. rewrite Hrow, Hn, take_take. do 2 f_equal. lia.
Qed.

Lemma backspaces_remove_before_cursor_witness :
  well_formed (buffer (Editor two_lines 4 1)) = true
  /\ 0 <= cursor_x (Editor two_lines 4 1)
       <= Z.of_nat (length (row_content (buffer (Editor two_lines 4 1))
                              (row_of (cursor_y (Editor two_lines 4 1)))))
  /\ Z.of_nat 3 <= cursor_x (Editor two_lines 4 1)
  /\ exists e',
       handle_keys (Editor two_lines 4 1) (replicate 3 KeyDelete) = Returned e'
       /\ well_formed (buffer e') = true
       /\ row_content (buffer e') (row_of (cursor_y (Editor two_lines 4 1)))
          = take (Z.to_nat (cursor_x (Editor two_lines 4 1)) - 3)
              (row_content (buffer (Editor two_lines 4 1))
                 (row_of (cursor_y (Editor two_lines 4 1))))
            ++ drop (Z.to_nat (cursor_x (Editor two_lines 4 1)))
                 (row_content (buffer (Editor two_lines 4 1))
                    (row_of (cursor_y (Editor two_lines 4 1))))
       /\ cursor_x e' = cursor_x (Editor two_lines 4 1) - Z.of_nat 3
       /\ cursor_y e' = cursor_y (Editor two_lines 4 1)
       /\ forall r, r <> row_of (cursor_y (Editor two_lines 4 1)) ->
            row_content (buffer e') r
            = row_content (buffer (Editor two_lines 4 1)) r.
Proof.
  split; [reflexivity|]. split; [vm_compute; split; discriminate|].
  split; [cbn; lia|].
  apply (backspaces_remove_before_cursor (Editor two_lines 4 1) 3);
    [reflexivity|vm_compute; split; discriminate|cbn; lia].
Defined.

Lemma bind_returned {A B : Type} (m : outcome A) (k : A -> outcome B) r :
  bind m k = Returned r -> exists a, m = Returned a /\ k a = Returned r.
Proof. destruct m as [a| |]; cbn [bind]; [eauto|discriminate..]. Qed.

Lemma handle_key_keeps_linked e k e' :
  linked (buffer e) = true ->
  handle_key e k = Returned e' ->
  linked (buffer e') = true
  /\ (length (lines (buffer e)) <= length (lines (buffer e')))%nat.
Proof.
  intros Hl Hrun. destruct k as [| | | | |ch]; cbn [handle_key] in Hrun.
  1-4: apply bind_returned in Hrun as (v & _ & Hret);
       injection Hret as <-; cbn [buffer]; auto.
  - apply bind_returned in Hrun as (b' & Hdel & Hrun).
    apply bind_returned in Hrun as (v & _ & Hret). injection Hret as <-.
    cbn [buffer]. unfold buffer_remove_character in Hdel.
    destruct (edit_keeps_linked _ _ _ _ Hl Hdel) as [Hl' Hcount].
    split; [exact Hl'|lia].
  - destruct (isprint ch).
    + apply bind_returned in Hrun as (b' & Hins & Hrun).
      apply bind_returned in Hrun as (v & _ & Hret). injection Hret as <-.
      cbn [buffer]. unfold buffer_insert_character in Hins.
      destruct (edit_keeps_linked _ _ _ _ Hl Hins) as [Hl' Hcount].
      split; [exact Hl'|lia].
    + injection Hrun as <-. auto.
Qed.

(** X15: whatever keys are handled, from a linked store (the initial one
    is linked), if the run returns then the store is linked again, with at
    least as many lines as before: while the behaviour is defined, no key
    breaks the list and no key removes a line. *)
Theorem keys_keep_linked e ks e' :
  linked (buffer e) = true ->
  handle_keys e ks = Returned e' ->
  linked (buffer e') = true
  /\ (length (lines (buffer e)) <= length (lines (buffer e')))%nat.
Proof.
  revert e. induction ks as [|k ks IH]; intros e Hl Hrun; cbn [handle_keys] in Hrun.
  - injection Hrun as <-. auto.
  - apply bind_returned in Hrun as (e1 & Hkey & Hrest).
    destruct (handle_key_keeps_linked _ _ _ Hl Hkey) as [Hl1 Hc1].
    destruct (IH e1 Hl1 Hrest) as [Hl' Hc']. split; [exact Hl'|lia].
Qed.

Lemma keys_keep_linked_witness :
  linked (buffer initial_editor) = true
  /\ handle_keys initial_editor
       [KeyDown; KeyOther (of_char "a"); KeyUp; KeyUp; KeyDelete; KeyOther 7]
     = Returned
         (Editor (Buf [Node empty_text (Some 1%nat);
                       Node (padded (list_ascii_of_string "a")) None]
                      (Some 0%nat) (Some 0%nat))
                 0 (-1))
  /\ exists e',
       linked (buffer e') = true
       /\ (length (lines (buffer initial_editor)) <= length (lines (buffer e')))%nat.
Proof.
  split; [reflexivity|]. split; [vm_compute; reflexivity|].
  eexists.
  apply (keys_keep_linked initial_editor
           [KeyDown; KeyOther (of_char "a"); KeyUp; KeyUp; KeyDelete; KeyOther 7]);
    [reflexivity|vm_compute; reflexivity].
Defined.

Lemma delete_then_retype_witness :
  well_formed (buffer (Editor two_lines 3 1)) = true
  /\ 1 <= cursor_x (Editor two_lines 3 1) <= INT_MAX
  /\ row_content (buffer (Editor two_lines 3 1))
       (row_of (cursor_y (Editor two_lines 3 1)))
     !! Z.to_nat (cursor_x (Editor two_lines 3 1) - 1) = Some "e"%char
  /\ isprint (of_char "e") = true
  /\ exists e2,
       handle_keys (Editor two_lines 3 1) [KeyDelete; KeyOther (of_char "e")]
       = Returned e2
       /\ cursor_x e2 = cursor_x (Editor two_lines 3 1)
       /\ cursor_y e2 = cursor_y (Editor two_lines 3 1)
       /\ forall r, row_content (buffer e2) r
                    = row_content (buffer (Editor two_lines 3 1)) r.
Proof.
  split; [reflexivity|]. split; [unfold INT_MAX; cbn; lia|].
  split; [reflexivity|]. split; [reflexivity|].
  apply (delete_then_retype (Editor two_lines 3 1) "e"%char);
    [reflexivity|unfold INT_MAX; cbn; lia|reflexivity|reflexivity].
Defined.

Lemma handle_keys_app ks1 : forall e ks2,
  handle_keys e (ks1 ++ ks2)
  = (do e1 <- handle_keys e ks1; handle_keys e1 ks2).
Proof.
  induction ks1 as [|k ks1 IH]; intros e ks2; cbn [app handle_keys bind];
    [reflexivity|].
  destruct (handle_key e k) as [e1| |]; cbn [bind]; [apply IH|reflexivity..].
Qed.

(** X16: on a well-formed store, with the cursor at the end of the
    content of its row, typing printable characters up to 127 in the line
    and then two more is undefined behaviour: the first of the two takes
    the place of the terminator, the second is written outside the
    array. *)
Theorem typing_past_capacity e s c1 c2 :
  well_formed (buffer e) = true ->
  forallb (fun c => isprint (of_char c)) (s ++ [c1; c2]) = true ->
  cursor_x e = Z.of_nat (length (row_content (buffer e) (row_of (cursor_y e)))) ->
  (length (row_content (buffer e) (row_of (cursor_y e))) + length s = 127)%nat ->
  handle_keys e (map (fun c => KeyOther (of_char c)) (s ++ [c1; c2])) = Undefined.
Proof.
  intros Hwf Hprint Hx Hroom.
  rewrite forallb_app in Hprint. apply andb_true_iff in Hprint as [Hs Hcs].
  cbn [forallb] in Hcs. apply andb_true_iff in Hcs as [Hc1 Hc2].
  apply andb_true_iff in Hc2 as [Hc2 _].
  destruct (type_at_end s e Hwf Hs Hx) as (e1 & Hrun & Hwf1 & Hrow1 & Hx1 & Hy1 & _);
    [lia|].
  rewrite map_app, handle_keys_app, Hrun. cbn [bind].
  destruct e1 as [b1 x1 y1]. cbn [buffer cursor_x cursor_y] in *. subst y1.
  assert (x1 = 127) as -> by lia.
  destruct (last_column_unterminates b1 (of_char c1) (cursor_y e) Hwf1)
    as (b2 & Hins & _ & _ & _ & _ & Hlater); [apply isprint_not_nul, Hc1|].
  cbn [map handle_keys handle_key buffer cursor_x cursor_y].
  rewrite Hc1, Hins. cbn [bind].
  rewrite int_add_in_range by (unfold INT_MIN, INT_MAX; lia). cbn [bind].
  cbn [buffer cursor_x cursor_y]. rewrite Hc2, Hlater. reflexivity.
Qed.

Lemma typing_past_capacity_witness :
  well_formed (buffer initial_editor) = true
  /\ forallb (fun c => isprint (of_char c))
       (replicate 127 "a"%char ++ ["b"%char; "c"%char]) = true
  /\ cursor_x initial_editor
     = Z.of_nat (length (row_content (buffer initial_editor)
                           (row_of (cursor_y initial_editor))))
  /\ (length (row_content (buffer initial_editor)
                (row_of (cursor_y initial_editor)))
      + length (replicate 127 "a"%char) = 127)%nat
  /\ handle_keys initial_editor
       (map (fun c => KeyOther (of_char c))
            (replicate 127 "a"%char ++ ["b"%char; "c"%char]))
     = Undefined.
Proof.
  split; [reflexivity|]. split; [vm_compute; reflexivity|].
  split; [reflexivity|]. split; [reflexivity|].
  apply (typing_past_capacity initial_editor (replicate 127 "a"%char)
           "b"%char "c"%char);
    [reflexivity|vm_compute; reflexivity|reflexivity|reflexivity].
Defined.
